(** * Feedback server: a shallow embedding of [server.js]

    The Express application of [server.js] receives a feedback submission on
    [POST /send-feedback], stores it through mongoose, renders an HTML summary
    and mails it through nodemailer.  Failures travel through [next(err)] to
    one error-handling middleware.

    The embedding follows the source top-down: JavaScript values and the two
    coercions the code applies to them ([ToBoolean] for [!x] and [x || y],
    [ToString] for template literals), the [AppError] class, [catchAsync],
    the schema of the model with the cast that mongoose applies to a
    document, the route handlers, the global error handler, and the
    middleware stack in its order of registration ([cors()],
    [express.json()], [express.static], the routes).  The store, the mail
    transport, the [public] directory and the parsing of the raw body are
    outside the process: their outcome for one request is read from the
    request and from an environment record, their effect is recorded in an
    explicit world state.  What the process writes to the console is not
    part of that state. *)

From Stdlib Require Import String Ascii List ZArith Bool Lia.
From Stdlib Require Import DecimalString.
Import ListNotations.

Set Warnings "-register-all".
Local Open Scope string_scope.
Local Open Scope Z_scope.

(* ===================================================================== *)
(** ** JavaScript values *)
(* ===================================================================== *)

Module JS.

(** Values that [JSON.parse] can put in [req.body], plus [undefined] for an
    absent property.  The program observes a number only through [ToBoolean]
    and [ToString]; a number is therefore carried as the text that
    [Number::toString] gives it (["0"] for both zeroes, ["1.5"], ["1e+21"],
    ["Infinity"]).  That text is never empty: [JNumber] holds its first
    character and the rest.  The fields of [JObj] are the own properties of
    the object, with pairwise distinct keys. *)
Inductive JValue : Type :=
| JUndefined
| JNull
| JBool (b : bool)
| JNumber (first : ascii) (rest : string)
| JStr (s : string)
| JArr (elems : list JValue)
| JObj (fields : list (string * JValue)).

(** The number written [text]. *)
Definition JNum (text : string) : JValue :=
  match text with
  | String first rest => JNumber first rest
  | EmptyString => JNumber "0" ""
  end.

(** Error instances as the error handler reads them: every [Error] has a
    message and a stack; [statusCode] and [status] are properties that
    [AppError] adds ([None], [JUndefined] when the property is absent). *)
Record JsError : Type := mkJsError {
  message : string;
  stack : string;
  statusCode : option Z;
  status : JValue
}.

(** The result of evaluating an expression: a value or a thrown error. *)
Inductive Result (A : Type) : Type :=
| Ok (a : A)
| Throw (e : JsError).
Arguments Ok {A} a.
Arguments Throw {A} e.

Definition rbind {A B} (r : Result A) (k : A -> Result B) : Result B :=
  match r with
  | Ok a => k a
  | Throw e => Throw e
  end.

(** A [TypeError] raised by the engine: a plain [Error] instance, with none
    of the properties of [AppError]. *)
Definition TypeError (trace msg : string) : JsError :=
  {| message := msg; stack := trace; statusCode := None; status := JUndefined |}.

(** [ToBoolean]: the falsy values are [undefined], [null], [false], the
    number zero and the empty string; every array and object is truthy. *)
Definition truthy (v : JValue) : bool :=
  match v with
  | JUndefined => false
  | JNull => false
  | JBool b => b
  | JNumber first rest => negb (String first rest =? "0")%string
  | JStr s => negb (s =? "")%string
  | JArr _ => true
  | JObj _ => true
  end.

(** [a || b] *)
Definition or_else (a b : JValue) : JValue :=
  if truthy a then a else b.

Definition has_own (key : string) (fields : list (string * JValue)) : bool :=
  existsb (fun kv => (fst kv =? key)%string) fields.

(** [ToString], as a template literal applies it to a substitution.  An
    array goes through [Array.prototype.join] with [","], where [undefined]
    and [null] elements give the empty string.  A plain object gives
    ["[object Object]"] through [Object.prototype.toString]; an own
    [toString] property parsed from JSON is never callable, and the
    conversion then fails. *)
Fixpoint to_string (trace : string) (v : JValue) : Result string :=
  match v with
  | JUndefined => Ok "undefined"
  | JNull => Ok "null"
  | JBool true => Ok "true"
  | JBool false => Ok "false"
  | JNumber first rest => Ok (String first rest)
  | JStr s => Ok s
  | JArr elems =>
      (fix join (l : list JValue) : Result string :=
         match l with
         | [] => Ok ""
         | x :: rest =>
             rbind (match x with
                    | JUndefined | JNull => Ok ""
                    | _ => to_string trace x
                    end)
                   (fun s =>
                      match rest with
                      | [] => Ok s
                      | _ :: _ => rbind (join rest) (fun r => Ok (s ++ "," ++ r))
                      end)
         end) elems
  | JObj fields =>
      if has_own "toString" fields
      then Throw (TypeError trace "Cannot convert object to primitive value")
      else Ok "[object Object]"
  end.

(** Property read [o.key]: own properties of an object; none of the keys the
    program reads exists on an array or on a primitive. *)
Fixpoint lookup (key : string) (fields : list (string * JValue)) : JValue :=
  match fields with
  | [] => JUndefined
  | (k, v) :: rest => if (k =? key)%string then v else lookup key rest
  end.

Definition get (o : JValue) (key : string) : JValue :=
  match o with
  | JObj fields => lookup key fields
  | _ => JUndefined
  end.

(** [String.prototype.startsWith] *)
Definition startsWith (s p : string) : bool := String.prefix p s.

(** [String(n)] for an integer [n]. *)
Definition string_of_Z (n : Z) : string :=
  NilZero.string_of_int (Z.to_int n).

End JS.
Import JS.

(* ===================================================================== *)
(** ** The application *)
(* ===================================================================== *)

Module App.

(** *** Requests *)

(** An error that a middleware of the framework hands to [next]: an
    [http-errors] error, whose [status] and [statusCode] are both the
    numeric HTTP code. *)
Record HttpError : Type := mkHttpError {
  http_code : Z;
  http_message : string;
  http_stack : string
}.

Definition error_of_http (e : HttpError) : JsError :=
  {| message := http_message e; stack := http_stack e;
     statusCode := Some (http_code e);
     status := JNum (string_of_Z (http_code e)) |}.

(** A request as the middleware stack sees it.  [method] is [req.method],
    in upper case as node gives it; [originalUrl] is the request target in
    origin form ([/path?query]).  [body] is [req.body] as [express.json()]
    leaves it, and [parser_error] is the error that [express.json()] hands
    to [next] when it refuses the headers or the raw body (entity too large,
    unsupported charset, malformed JSON). *)
Record Request : Type := mkRequest {
  method : string;
  originalUrl : string;
  body : JValue;
  parser_error : option HttpError
}.

(** *** Configuration and collaborators *)

(** A fault raised by the mongoose model or by the mail transport: a plain
    [Error] of the library, which carries a message and a stack and neither
    a [statusCode] nor a [status] property. *)
Record Fault : Type := mkFault {
  fault_message : string;
  fault_stack : string
}.

Definition error_of_fault (f : Fault) : JsError :=
  {| message := fault_message f; stack := fault_stack f;
     statusCode := None; status := JUndefined |}.

(** A document of the [Feedback] model, after the [feedbackSchema] that
    [server.js] declares itself (it does not load [models/Feedback.js]):
    [name], [vehicle] and [phone] of type [String], [answers] of type
    [[String]], and [submittedAt] with the default [Date.now]. *)
Record Feedback : Type := mkFeedback {
  fb_name : JValue;
  fb_vehicle : JValue;
  fb_phone : JValue;
  fb_answers : JValue;
  fb_submittedAt : Z
}.

(** What [express.static("public")] does with a [GET] or [HEAD] request:
    it passes the request on when the directory has nothing for it, sends a
    file, or hands a fault of the file system to [next]. *)
Inductive StaticOutcome : Type :=
| Fallthrough
| Served (code : Z) (content : string)
| StaticFault (e : HttpError).

(** What one request reads from the process and from its collaborators:
    [process.env], the clock, the stack text that [Error.captureStackTrace]
    records, what the [public] directory serves, the [ValidationError] that
    mongoose raises for a document it cannot cast, and whether the store
    and the mail transport reject. *)
Record Env : Type := mkEnv {
  COMPANY_EMAIL : option string;
  NODE_ENV : option string;
  Date_now : Z;
  toLocaleString : string;
  captured_stack : string;
  serve_static : Request -> StaticOutcome;
  validation_error : Feedback -> Fault;
  save_rejects : option Fault;
  sendMail_rejects : option Fault
}.

(** The argument of [transporter.sendMail]. *)
Record Mail : Type := mkMail {
  mail_from : string;
  mail_to : option string;
  mail_subject : string;
  mail_html : string
}.

(** Calls made to the collaborators, in order. *)
Inductive Call : Type :=
| CallSave (doc : Feedback)
| CallSendMail (m : Mail).

(** The state outside the process: the stored documents, the delivered
    messages, and the calls attempted. *)
Record World : Type := mkWorld {
  store : list Feedback;
  outbox : list Mail;
  calls : list Call
}.

(** *** Computations of a request handler: state and exceptions *)

Definition M (A : Type) : Type := World -> Result A * World.

Definition ret {A} (a : A) : M A := fun w => (Ok a, w).

Definition bind {A B} (m : M A) (k : A -> M B) : M B :=
  fun w =>
    match m w with
    | (Ok a, w') => k a w'
    | (Throw e, w') => (Throw e, w')
    end.

Definition lift {A} (r : Result A) : M A := fun w => (r, w).

(** [try { m } catch (e) { h e }] *)
Definition try_catch {A} (m : M A) (h : JsError -> M A) : M A :=
  fun w =>
    match m w with
    | (Ok a, w') => (Ok a, w')
    | (Throw e, w') => h e w'
    end.

Declare Scope js_scope.
Delimit Scope js_scope with js.
Notation "x <- m ;; k" := (bind m (fun x => k))
  (at level 61, m at next level, right associativity) : js_scope.
Notation "m ;;; k" := (bind m (fun _ => k))
  (at level 61, right associativity) : js_scope.
Local Open Scope js_scope.

(** *** The schema of the [Feedback] model *)

(** The cast of the [String] schema type ([castString] of mongoose):
    [null] and [undefined] are kept, a string, a number and a boolean give
    their text, an object gives its [_id] when that is a non-empty string,
    and every other object and every array is a [CastError]. *)
Definition cast_String (v : JValue) : option JValue :=
  match v with
  | JUndefined => Some JUndefined
  | JNull => Some JNull
  | JBool true => Some (JStr "true")
  | JBool false => Some (JStr "false")
  | JNumber first rest => Some (JStr (String first rest))
  | JStr s => Some (JStr s)
  | JArr _ => None
  | JObj fields =>
      match lookup "_id" fields with
      | JStr id => if (id =? "")%string then None else Some (JStr id)
      | _ => None
      end
  end.

Fixpoint cast_elems (l : list JValue) : option (list JValue) :=
  match l with
  | [] => Some []
  | x :: rest =>
      match cast_String x, cast_elems rest with
      | Some y, Some ys => Some (y :: ys)
      | _, _ => None
      end
  end.

(** The cast of the [[String]] schema type: the elements of an array are
    cast one by one, and a value that is not an array is cast as the array
    of that one value.  ([undefined] takes the default [[]] and [null]
    stays; the handler passes neither.) *)
Definition cast_Strings (v : JValue) : option JValue :=
  match v with
  | JArr l => option_map JArr (cast_elems l)
  | JUndefined => Some (JArr [])
  | JNull => Some JNull
  | _ => option_map JArr (cast_elems [v])
  end.

(** The document as mongoose holds it after casting the four paths; [None]
    when a path cannot be cast. *)
Definition cast (doc : Feedback) : option Feedback :=
  match cast_String (fb_name doc), cast_String (fb_vehicle doc),
        cast_String (fb_phone doc), cast_Strings (fb_answers doc) with
  | Some n, Some v, Some p, Some a =>
      Some {| fb_name := n; fb_vehicle := v; fb_phone := p; fb_answers := a;
              fb_submittedAt := fb_submittedAt doc |}
  | _, _, _, _ => None
  end.

(** [await doc.save()], for [doc] built by [new Feedback(...)] from the
    values of [doc]: validation comes first and rejects with the
    [ValidationError] when a path could not be cast; then the cast document
    is written, unless the store rejects. *)
Definition save (env : Env) (doc : Feedback) : M unit :=
  fun w =>
    let w1 := {| store := store w; outbox := outbox w;
                 calls := calls w ++ [CallSave doc] |} in
    match cast doc with
    | None => (Throw (error_of_fault (validation_error env doc)), w1)
    | Some stored =>
        match save_rejects env with
        | Some f => (Throw (error_of_fault f), w1)
        | None =>
            (Ok tt, {| store := store w1 ++ [stored]; outbox := outbox w1;
                       calls := calls w1 |})
        end
    end.

(** [await transporter.sendMail(m)] *)
Definition sendMail (env : Env) (m : Mail) : M unit :=
  fun w =>
    let w1 := {| store := store w; outbox := outbox w;
                 calls := calls w ++ [CallSendMail m] |} in
    match sendMail_rejects env with
    | Some f => (Throw (error_of_fault f), w1)
    | None =>
        (Ok tt, {| store := store w1; outbox := outbox w1 ++ [m];
                   calls := calls w1 |})
    end.

(** *** [class AppError extends Error] *)

Definition AppError (env : Env) (msg : string) (code : Z) : JsError :=
  {| message := msg;
     stack := captured_stack env;
     statusCode := Some code;
     status := if startsWith (string_of_Z code) "4"
               then JStr "fail" else JStr "error" |}.

(** *** Responses *)

Inductive Payload : Type :=
| NoContent
| File (content : string)
| Json (fields : list (string * JValue)).

Record Response : Type := mkResponse {
  res_status : Z;
  res_payload : Payload
}.

(** [res.json(obj)]: [JSON.stringify] leaves out the properties whose value
    is [undefined]. *)
Definition is_undefined (v : JValue) : bool :=
  match v with JUndefined => true | _ => false end.

Definition json (fields : list (string * JValue)) : Payload :=
  Json (filter (fun kv => negb (is_undefined (snd kv))) fields).

(** A handler either sends the response or hands an error to [next]. *)
Inductive Outcome : Type :=
| Responded (r : Response)
| Next (err : JsError).

(** *** [catchAsync] *)

(** [Promise.resolve(fn(req, res, next)).catch(next)]: a rejection of the
    handler's promise becomes a call of [next]. *)
Definition catchAsync (fn : Request -> M Outcome) (req : Request)
  : World -> Outcome * World :=
  fun w =>
    match fn req w with
    | (Ok o, w') => (o, w')
    | (Throw e, w') => (Next e, w')
    end.

(** *** [POST /send-feedback] *)

(** The question list of the handler. *)
Definition questions : list string := [
  "How would you rate your overall interaction & experience with workshop?";
  "How would you rate the quality of maintenance & repair work done on your car?";
  "How would you rate the condition or cleanliness of your car on return?";
  "How would you rate the explanation given by service advisor on the work done of your car?";
  "How would you rate the Service Delivery process of your car after servicing?";
  "How would you rate the overall cleanliness of the Dealer Facility?";
  "Did you receive the car as per promised Date & Time?";
  "Were all the work reported by you completed?";
  "Were the repair charges reasonable with respect to the work done?";
  "Was the Pre Road Test conducted with you before opening the Repair Order?";
  "Did Service Advisor open your Repair Order in which device format?";
  "How do you rate the courtesy & behaviour of the person who came to pick & drop your vehicle?";
  "Was the vehicle picked & dropped as per committed time?";
  "Did the SA inform you about the Estimate of Repair & Cost?";
  "How would you rate the support provided by workshop in getting Insurance claim?";
  "How would you rate the quality of Bodyshop repair work done on your car?";
  "Did the Workshop provide you regular updates about your vehicle status on WhatsApp Group?";
  "Were you provided the Final Road Test during delivery of the Vehicle?"
].

(** [arr[i]] on an array of strings: [undefined] past the end. *)
Definition index (arr : list string) (i : nat) : JValue :=
  match nth_error arr i with
  | Some s => JStr s
  | None => JUndefined
  end.

(** The callback of [answers.map]:
    [(ans, i) => `<li><b>${questions[i]}</b><br/>Answer: ${ans || "Not Answered"}</li>`] *)
Definition item (env : Env) (ans : JValue) (i : nat) : Result string :=
  rbind (to_string (captured_stack env) (index questions i)) (fun q =>
  rbind (to_string (captured_stack env) (or_else ans (JStr "Not Answered"))) (fun a =>
  Ok ("<li><b>" ++ q ++ "</b><br/>Answer: " ++ a ++ "</li>"))).

(** [Array.prototype.map] with the index passed to the callback. *)
Fixpoint map_from (f : JValue -> nat -> Result string) (i : nat)
    (l : list JValue) : Result (list string) :=
  match l with
  | [] => Ok []
  | x :: rest =>
      rbind (f x i) (fun y =>
      rbind (map_from f (S i) rest) (fun ys => Ok (y :: ys)))
  end.

(** [answers.map(...)]: only an array has a [map] method; on any other
    truthy JSON value the call raises a [TypeError]. *)
Definition items (env : Env) (answers : JValue) : Result (list string) :=
  match answers with
  | JArr l => map_from (item env) 0%nat l
  | _ => Throw (TypeError (captured_stack env) "answers.map is not a function")
  end.

Definition nl : string := String (ascii_of_nat 10) EmptyString.
Definition dquote : string := String (ascii_of_nat 34) EmptyString.

(** The template literal [feedbackHTML]; substitutions are evaluated from
    left to right. *)
Definition feedbackHTML (env : Env) (name vehicle phone answers : JValue)
  : Result string :=
  rbind (to_string (captured_stack env) name) (fun n =>
  rbind (to_string (captured_stack env) vehicle) (fun v =>
  rbind (to_string (captured_stack env) phone) (fun p =>
  rbind (items env answers) (fun lis =>
  Ok (nl ++ "    <h2>Hyundai Customer Feedback</h2>"
   ++ nl ++ "    <p><b>Name:</b> " ++ n ++ "</p>"
   ++ nl ++ "    <p><b>Vehicle No:</b> " ++ v ++ "</p>"
   ++ nl ++ "    <p><b>Phone:</b> " ++ p ++ "</p>"
   ++ nl ++ "    <hr/>"
   ++ nl ++ "    <h3>📝 Feedback Summary</h3>"
   ++ nl ++ "    <ol>"
   ++ nl ++ "      " ++ String.concat "" lis
   ++ nl ++ "    </ol>"
   ++ nl ++ "    <p>🕒 Submitted on: " ++ toLocaleString env ++ "</p>"
   ++ nl ++ "  "))))).

(** [process.env.X] inside a template literal. *)
Definition env_text (x : option string) : string :=
  match x with
  | Some s => s
  | None => "undefined"
  end.

(** The argument object of [transporter.sendMail], built inside the [try]
    block. *)
Definition mail_options (env : Env) (name vehicle : JValue) (html : string)
  : Result Mail :=
  rbind (to_string (captured_stack env) name) (fun n =>
  rbind (to_string (captured_stack env) vehicle) (fun v =>
  Ok {| mail_from := dquote ++ "Hyundai Feedback" ++ dquote
                     ++ " <" ++ env_text (COMPANY_EMAIL env) ++ ">";
        mail_to := COMPANY_EMAIL env;
        mail_subject := "New Feedback from " ++ n ++ " (" ++ v ++ ")";
        mail_html := html |})).

(** [const { name, vehicle, phone, answers } = req.body]: destructuring
    [undefined] or [null] raises a [TypeError]. *)
Definition destructure (env : Env) (b : JValue)
  : Result (JValue * JValue * JValue * JValue) :=
  match b with
  | JUndefined =>
      Throw (TypeError (captured_stack env)
        "Cannot destructure property 'name' of 'req.body' as it is undefined.")
  | JNull =>
      Throw (TypeError (captured_stack env)
        "Cannot destructure property 'name' of 'req.body' as it is null.")
  | _ => Ok (get b "name", get b "vehicle", get b "phone", get b "answers")
  end.

(** The guard [!name || !vehicle || !phone || !answers] of the handler. *)
Definition incomplete (name vehicle phone answers : JValue) : bool :=
  negb (truthy name) || negb (truthy vehicle) || negb (truthy phone)
  || negb (truthy answers).

(** The body of the handler passed to [catchAsync]. *)
Definition send_feedback (env : Env) (req : Request) : M Outcome :=
  fields <- lift (destructure env (body req)) ;;
  let '(name, vehicle, phone, answers) := fields in
  if incomplete name vehicle phone answers
  then ret (Next (AppError env "Incomplete data. All fields required." 400))
  else
    let newFeedback :=
      {| fb_name := name; fb_vehicle := vehicle; fb_phone := phone;
         fb_answers := answers; fb_submittedAt := Date_now env |} in
    save env newFeedback ;;;
    html <- lift (feedbackHTML env name vehicle phone answers) ;;
    sent <- try_catch
              (m <- lift (mail_options env name vehicle html) ;;
               sendMail env m ;;;
               ret true)
              (fun emailError => ret false) ;;
    if sent : bool
    then ret (Responded
                {| res_status := 200;
                   res_payload :=
                     json [("success", JBool true);
                           ("message",
                            JStr "Feedback saved and email sent successfully")] |})
    else ret (Next (AppError env "Feedback saved but email sending failed" 500)).

(** *** [app.all("*")] *)

Definition not_found (env : Env) (req : Request) : Outcome :=
  Next (AppError env ("Can't find " ++ originalUrl req ++ " on this server!") 404).

(** *** The global error handler *)

(** [process.env.NODE_ENV === "development"] *)
Definition development (env : Env) : bool :=
  match NODE_ENV env with
  | Some s => (s =? "development")%string
  | None => false
  end.

Definition errorHandler (env : Env) (err : JsError) : Response :=
  let code :=
    match statusCode err with
    | Some c => if c =? 0 then 500 else c
    | None => 500
    end in
  let st := or_else (status err) (JStr "error") in
  {| res_status := code;
     res_payload :=
       json [("success", JBool false);
             ("status", st);
             ("message",
              JStr (if (message err =? "")%string
                    then "Internal Server Error" else message err));
             ("stack",
              if development env then JStr (stack err) else JUndefined)] |}.

(** *** Routing *)

(** [parseurl(req).pathname]: the request target up to the query string. *)
Fixpoint pathname (url : string) : string :=
  match url with
  | EmptyString => EmptyString
  | String c rest => if (c =? "?")%char then EmptyString
                     else String c (pathname rest)
  end.

Definition lower (c : ascii) : ascii :=
  let n := nat_of_ascii c in
  if ((65 <=? n) && (n <=? 90))%nat then ascii_of_nat (n + 32) else c.

Fixpoint lowercase (s : string) : string :=
  match s with
  | EmptyString => EmptyString
  | String c rest => String (lower c) (lowercase rest)
  end.

(** The match of a path against the pattern that Express compiles for a
    route written in lower case without parameters, [/^route\/?$/i]: the
    letters are compared without case and one trailing slash is allowed. *)
Definition route_match (route path : string) : bool :=
  (lowercase path =? route)%string || (lowercase path =? route ++ "/")%string.

(** An [app.get] route also answers [HEAD]; [express.static] looks at
    [GET] and [HEAD] only. *)
Definition get_or_head (req : Request) : bool :=
  (method req =? "GET")%string || (method req =? "HEAD")%string.

(** The value of a hexadecimal digit. *)
Definition hex (c : ascii) : option N :=
  let n := N_of_ascii c in
  if ((48 <=? n) && (n <=? 57))%N then Some (n - 48)%N
  else if ((65 <=? n) && (n <=? 70))%N then Some (n - 55)%N
  else if ((97 <=? n) && (n <=? 102))%N then Some (n - 87)%N
  else None.

(** The units that [decodeURIComponent] reads: a character taken as it is
    ([None]) or an escape [%XX] with its octet; no units when a [%] is not
    followed by two hexadecimal digits. *)
Fixpoint units (s : string) : option (list (option N)) :=
  match s with
  | EmptyString => Some []
  | String c rest =>
      if (c =? "%")%char then
        match rest with
        | String h1 (String h2 rest') =>
            match hex h1, hex h2, units rest' with
            | Some a, Some b, Some us => Some (Some (16 * a + b)%N :: us)
            | _, _, _ => None
            end
        | _ => None
        end
      else option_map (cons None) (units rest)
  end.

(** An escape whose octet lies between [lo] and [hi]. *)
Definition octet_in (lo hi : N) (u : option N) : bool :=
  match u with
  | Some b => ((lo <=? b) && (b <=? hi))%N
  | None => false
  end.

(** The escapes spell well-formed UTF-8: an octet below 128 stands alone,
    and a leading octet is followed by escapes for its continuation octets,
    with no overlong form, no surrogate and nothing past U+10FFFF. *)
Fixpoint well_formed (us : list (option N)) : bool :=
  match us with
  | [] => true
  | None :: rest => well_formed rest
  | Some b :: rest =>
      if (b <? 128)%N then well_formed rest
      else if ((194 <=? b) && (b <=? 223))%N then
        match rest with
        | u1 :: rest1 => octet_in 128 191 u1 && well_formed rest1
        | _ => false
        end
      else if ((224 <=? b) && (b <=? 239))%N then
        match rest with
        | u1 :: u2 :: rest2 =>
            octet_in (if (b =? 224)%N then 160 else 128)
                     (if (b =? 237)%N then 159 else 191) u1
            && octet_in 128 191 u2 && well_formed rest2
        | _ => false
        end
      else if ((240 <=? b) && (b <=? 244))%N then
        match rest with
        | u1 :: u2 :: u3 :: rest3 =>
            octet_in (if (b =? 240)%N then 144 else 128)
                     (if (b =? 244)%N then 143 else 191) u1
            && octet_in 128 191 u2 && octet_in 128 191 u3
            && well_formed rest3
        | _ => false
        end
      else false
  end.

(** [decodeURIComponent(path)] does not throw. *)
Definition decodable (path : string) : bool :=
  match units path with
  | Some us => well_formed us
  | None => false
  end.

(** The error of Express's [decode_param] when the path of a request that
    reaches [app.all("*")] cannot be decoded. *)
Definition decode_error (env : Env) (path : string) : JsError :=
  {| message := "Failed to decode param '" ++ path ++ "'";
     stack := captured_stack env;
     statusCode := Some 400;
     status := JNum "400" |}.

(** The layer of the middleware stack that answers a request, in the order
    of registration: [app.get('/favicon.ico')]; [cors()], which answers
    every [OPTIONS] request itself; [express.json()], when it refuses the
    body; [express.static("public")]; [app.post("/send-feedback")]; and
    [app.all("*")], which fails when the path cannot be decoded. *)
Inductive Layer : Type :=
| FaviconRoute
| CorsPreflight
| BodyParser (e : HttpError)
| StaticLayer (code : Z) (content : string)
| StaticError (e : HttpError)
| SendFeedbackRoute
| CatchAllRoute
| CatchAllDecode.

Definition layer (env : Env) (req : Request) : Layer :=
  if get_or_head req && route_match "/favicon.ico" (pathname (originalUrl req))
  then FaviconRoute
  else if (method req =? "OPTIONS")%string then CorsPreflight
  else
    match parser_error req with
    | Some e => BodyParser e
    | None =>
        match (if get_or_head req then serve_static env req else Fallthrough) with
        | Served code content => StaticLayer code content
        | StaticFault e => StaticError e
        | Fallthrough =>
            if (method req =? "POST")%string
               && route_match "/send-feedback" (pathname (originalUrl req))
            then SendFeedbackRoute
            else if decodable (pathname (originalUrl req)) then CatchAllRoute
            else CatchAllDecode
        end
    end.

(** *** The middleware stack *)

Definition finish (env : Env) (o : Outcome) : Response :=
  match o with
  | Responded r => r
  | Next err => errorHandler env err
  end.

Definition app (env : Env) (req : Request) (w : World) : Response * World :=
  match layer env req with
  | FaviconRoute => ({| res_status := 204; res_payload := NoContent |}, w)
  | CorsPreflight => ({| res_status := 204; res_payload := NoContent |}, w)
  | BodyParser e => (errorHandler env (error_of_http e), w)
  | StaticLayer code content =>
      ({| res_status := code; res_payload := File content |}, w)
  | StaticError e => (errorHandler env (error_of_http e), w)
  | SendFeedbackRoute =>
      let '(o, w') := catchAsync (send_feedback env) req w in
      (finish env o, w')
  | CatchAllRoute => (finish env (not_found env req), w)
  | CatchAllDecode =>
      (errorHandler env (decode_error env (pathname (originalUrl req))), w)
  end.

End App.
Import App.

(* ===================================================================== *)
(** ** Vocabulary of the properties *)
(* ===================================================================== *)

(** [hay.includes(needle)] *)
Fixpoint occurs (needle hay : string) : bool :=
  String.prefix needle hay ||
  match hay with
  | EmptyString => false
  | String _ rest => occurs needle rest
  end.

(** A property of the JSON body of a response. *)
Definition field (r : Response) (key : string) : JValue :=
  match res_payload r with
  | Json fields => lookup key fields
  | _ => JUndefined
  end.

Definition has_field (r : Response) (key : string) : bool :=
  match res_payload r with
  | Json fields => has_own key fields
  | _ => false
  end.

(** The answers of a submission of the HTTP interface: an array of text. *)
Definition texts (l : list string) : JValue := JArr (map JStr l).

(** One rendered list item. *)
Definition li (question answer : string) : string :=
  "<li><b>" ++ question ++ "</b><br/>Answer: " ++ answer ++ "</li>".

(** The text shown for an answer entry. *)
Definition shown (a : string) : string :=
  if (a =? "")%string then "Not Answered" else a.

(** The text shown for [questions[i]]. *)
Definition label (i : nat) : string :=
  match nth_error questions i with
  | Some q => q
  | None => "undefined"
  end.

(** The items that [answers.map] yields on an array of text, from index [i]. *)
Fixpoint li_from (i : nat) (l : list string) : list string :=
  match l with
  | [] => []
  | a :: rest => li (label i) (shown a) :: li_from (S i) rest
  end.

(** The handler passed validation with these four values. *)
Definition accepted (env : Env) (req : Request)
    (name vehicle phone answers : JValue) : Prop :=
  destructure env (body req) = Ok (name, vehicle, phone, answers) /\
  incomplete name vehicle phone answers = false.

(** The document that the handler builds. *)
Definition document (env : Env) (name vehicle phone answers : JValue)
  : Feedback :=
  {| fb_name := name; fb_vehicle := vehicle; fb_phone := phone;
     fb_answers := answers; fb_submittedAt := Date_now env |}.

(** The fault with which [save()] rejects, if it does: the
    [ValidationError] of a document that cannot be cast, else the fault of
    the store. *)
Definition save_fault (env : Env) (doc : Feedback) : option Fault :=
  match cast doc with
  | None => Some (validation_error env doc)
  | Some _ => save_rejects env
  end.

(** The page whose list holds exactly the items [lis], one after the other,
    for the text values [n], [v] and [p]. *)
Definition page (env : Env) (n v p : string) (lis : list string) : string :=
  nl ++ "    <h2>Hyundai Customer Feedback</h2>"
  ++ nl ++ "    <p><b>Name:</b> " ++ n ++ "</p>"
  ++ nl ++ "    <p><b>Vehicle No:</b> " ++ v ++ "</p>"
  ++ nl ++ "    <p><b>Phone:</b> " ++ p ++ "</p>"
  ++ nl ++ "    <hr/>"
  ++ nl ++ "    <h3>📝 Feedback Summary</h3>"
  ++ nl ++ "    <ol>"
  ++ nl ++ "      " ++ String.concat "" lis
  ++ nl ++ "    </ol>"
  ++ nl ++ "    <p>🕒 Submitted on: " ++ toLocaleString env ++ "</p>"
  ++ nl ++ "  ".

(** The values that [ToBoolean] sends to [false]. *)
Definition falsy (v : JValue) : Prop :=
  v = JUndefined \/ v = JNull \/ v = JBool false \/ v = JNum "0" \/
  v = JStr "".

(** The values whose conversion to text succeeds: no object with an own
    [toString] property, at any depth of nested arrays. *)
Fixpoint convertible (v : JValue) : bool :=
  match v with
  | JArr elems => forallb convertible elems
  | JObj fields => negb (has_own "toString" fields)
  | _ => true
  end.

(** The payloads on which the template [feedbackHTML] is rendered. *)
Definition renders (name vehicle phone answers : JValue) : bool :=
  convertible name && convertible vehicle && convertible phone &&
  match answers with
  | JArr l => forallb convertible l
  | _ => false
  end.

(** An element inside [Array.prototype.join], and the join of a list of
    elements with [","], as [to_string] computes them on an array. *)
Definition elem_string (trace : string) (x : JValue) : Result string :=
  match x with
  | JUndefined | JNull => Ok ""
  | _ => to_string trace x
  end.

Fixpoint join (trace : string) (l : list JValue) : Result string :=
  match l with
  | [] => Ok ""
  | x :: rest =>
      rbind (elem_string trace x)
        (fun s =>
           match rest with
           | [] => Ok s
           | _ :: _ => rbind (join trace rest) (fun r => Ok (s ++ "," ++ r))
           end)
  end.

(** Induction on values, with the elements of an array as premises. *)
Section JValue_nested_induction.

Variable P : JValue -> Prop.
Hypothesis Hundefined : P JUndefined.
Hypothesis Hnull : P JNull.
Hypothesis Hbool : forall b, P (JBool b).
Hypothesis Hnum : forall first rest, P (JNumber first rest).
Hypothesis Hstr : forall s, P (JStr s).
Hypothesis Harr : forall elems, Forall P elems -> P (JArr elems).
Hypothesis Hobj : forall fields, P (JObj fields).

Fixpoint JValue_nested_ind (v : JValue) : P v :=
  match v with
  | JUndefined => Hundefined
  | JNull => Hnull
  | JBool b => Hbool b
  | JNumber first rest => Hnum first rest
  | JStr s => Hstr s
  | JArr elems =>
      Harr elems
        ((fix all (l : list JValue) : Forall P l :=
            match l with
            | [] => Forall_nil P
            | x :: rest => Forall_cons x (JValue_nested_ind x) (all rest)
            end) elems)
  | JObj fields => Hobj fields
  end.

End JValue_nested_induction.

(** The error of a failed conversion. *)
Definition conversion_error (trace : string) : JsError :=
  TypeError trace "Cannot convert object to primitive value".

Definition conversion_spec (trace : string) (ok : bool) (r : Result string)
  : Prop :=
  if ok then exists s, r = Ok s else r = Throw (conversion_error trace).

(** An error raised while the page is rendered is a [TypeError] of the
    engine: it has neither a [statusCode] nor a [status]. *)
Definition render_error (env : Env) (e : JsError) : Prop :=
  e = conversion_error (captured_stack env) \/
  e = TypeError (captured_stack env) "answers.map is not a function".

(** The outcomes of one request on [POST /send-feedback] from the world
    [w]: the response sent and the world left, for each way through the
    handler. *)
Inductive handled (env : Env) (req : Request) (w : World)
  : Response -> World -> Prop :=
| handled_crash (e : JsError) :
    destructure env (body req) = Throw e ->
    handled env req w (errorHandler env e) w
| handled_incomplete (name vehicle phone answers : JValue) :
    destructure env (body req) = Ok (name, vehicle, phone, answers) ->
    incomplete name vehicle phone answers = true ->
    handled env req w
      (errorHandler env
         (AppError env "Incomplete data. All fields required." 400))
      w
| handled_store_fault (name vehicle phone answers : JValue) (f : Fault) :
    accepted env req name vehicle phone answers ->
    save_fault env (document env name vehicle phone answers) = Some f ->
    handled env req w
      (errorHandler env (error_of_fault f))
      {| store := store w; outbox := outbox w;
         calls := calls w ++ [CallSave (document env name vehicle phone answers)] |}
| handled_render_fault (name vehicle phone answers : JValue)
    (stored : Feedback) (e : JsError) :
    accepted env req name vehicle phone answers ->
    cast (document env name vehicle phone answers) = Some stored ->
    save_rejects env = None ->
    feedbackHTML env name vehicle phone answers = Throw e ->
    handled env req w
      (errorHandler env e)
      {| store := store w ++ [stored];
         outbox := outbox w;
         calls := calls w ++ [CallSave (document env name vehicle phone answers)] |}
| handled_mail_fault (name vehicle phone answers : JValue)
    (stored : Feedback) (html : string) (m : Mail) (f : Fault) :
    accepted env req name vehicle phone answers ->
    cast (document env name vehicle phone answers) = Some stored ->
    save_rejects env = None ->
    feedbackHTML env name vehicle phone answers = Ok html ->
    mail_options env name vehicle html = Ok m ->
    sendMail_rejects env = Some f ->
    handled env req w
      (errorHandler env
         (AppError env "Feedback saved but email sending failed" 500))
      {| store := store w ++ [stored];
         outbox := outbox w;
         calls := (calls w ++ [CallSave (document env name vehicle phone answers)])
                  ++ [CallSendMail m] |}
| handled_delivered (name vehicle phone answers : JValue)
    (stored : Feedback) (html : string) (m : Mail) :
    accepted env req name vehicle phone answers ->
    cast (document env name vehicle phone answers) = Some stored ->
    save_rejects env = None ->
    feedbackHTML env name vehicle phone answers = Ok html ->
    mail_options env name vehicle html = Ok m ->
    sendMail_rejects env = None ->
    handled env req w
      {| res_status := 200;
         res_payload :=
           Json [("success", JBool true);
                 ("message",
                  JStr "Feedback saved and email sent successfully")] |}
      {| store := store w ++ [stored];
         outbox := outbox w ++ [m];
         calls := (calls w ++ [CallSave (document env name vehicle phone answers)])
                  ++ [CallSendMail m] |}.

(** A document none of whose four fields is falsy. *)
Definition complete (d : Feedback) : bool :=
  truthy (fb_name d) && truthy (fb_vehicle d) && truthy (fb_phone d) &&
  truthy (fb_answers d).

(** The codes that [POST /send-feedback] answers with. *)
Definition send_feedback_code (c : Z) : Prop := c = 200 \/ c = 400 \/ c = 500.

(* ===================================================================== *)
(** ** Sample requests *)
(* ===================================================================== *)

Module Samples.

Definition nothing_served (req : Request) : StaticOutcome := Fallthrough.

Definition cast_failed (doc : Feedback) : Fault :=
  {| fault_message := "Feedback validation failed";
     fault_stack := "ValidationError: Feedback validation failed" |}.

Definition env_ok : Env :=
  {| COMPANY_EMAIL := Some "service@workshop.example";
     NODE_ENV := Some "production";
     Date_now := 1700000000000;
     toLocaleString := "11/14/2023, 10:13:20 PM";
     captured_stack := "Error at server.js";
     serve_static := nothing_served;
     validation_error := cast_failed;
     save_rejects := None;
     sendMail_rejects := None |}.

Definition env_mail_down : Env :=
  {| COMPANY_EMAIL := Some "service@workshop.example";
     NODE_ENV := Some "production";
     Date_now := 1700000000000;
     toLocaleString := "11/14/2023, 10:13:20 PM";
     captured_stack := "Error at server.js";
     serve_static := nothing_served;
     validation_error := cast_failed;
     save_rejects := None;
     sendMail_rejects :=
       Some {| fault_message := "connect ECONNREFUSED";
               fault_stack := "Error: connect ECONNREFUSED" |} |}.

Definition env_store_down : Env :=
  {| COMPANY_EMAIL := Some "service@workshop.example";
     NODE_ENV := Some "production";
     Date_now := 1700000000000;
     toLocaleString := "11/14/2023, 10:13:20 PM";
     captured_stack := "Error at server.js";
     serve_static := nothing_served;
     validation_error := cast_failed;
     save_rejects :=
       Some {| fault_message := "buffering timed out";
               fault_stack := "MongooseError: buffering timed out" |};
     sendMail_rejects := None |}.

Definition empty_world : World := {| store := []; outbox := []; calls := [] |}.

Definition post (fields : list (string * JValue)) : Request :=
  {| method := "POST"; originalUrl := "/send-feedback";
     body := JObj fields; parser_error := None |}.

Definition submission (answers : JValue) : Request :=
  post [("name", JStr "A. Singh"); ("vehicle", JStr "KA01AB1234");
        ("phone", JStr "9999999999"); ("answers", answers)].


Definition five : list string := ["Good"; "Good"; "Fair"; "Good"; "Poor"].

Definition eighteen : list string := repeat "Good" 18.


End Samples.

(** The message that the sample submission with five answers delivers. *)
Definition delivered_mail : Mail :=
  match
    outbox (snd (app Samples.env_ok (Samples.submission (texts Samples.five))
                   Samples.empty_world))
  with
  | m :: _ => m
  | [] => {| mail_from := ""; mail_to := None; mail_subject := "";
             mail_html := "" |}
  end.

(* ===================================================================== *)
(** ** Lemmas on strings and on the renderer *)
(* ===================================================================== *)

Lemma prefix_app (s t : string) : String.prefix s (s ++ t) = true.
Proof.
  induction s as [|c s IH]; simpl.
  - destruct t; reflexivity.
  - destruct (ascii_dec c c) as [_|ne]; [exact IH | now destruct ne].
Qed.

Lemma append_assoc (a b c : string) : ((a ++ b) ++ c = a ++ b ++ c)%string.
Proof. induction a as [|x a IH]; simpl; [reflexivity | now rewrite IH]. Qed.

Lemma occurs_prefix (s h : string) :
  String.prefix s h = true -> occurs s h = true.
Proof. intro H. destruct h; cbn [occurs]; rewrite H; reflexivity. Qed.

Lemma occurs_app (s a b : string) : occurs s (a ++ s ++ b) = true.
Proof.
  induction a as [|c a IH].
  - change (occurs s (s ++ b) = true). apply occurs_prefix, prefix_app.
  - change (occurs s (String c (a ++ s ++ b)) = true).
    cbn [occurs]. rewrite IH. apply orb_true_r.
Qed.

Lemma item_text (env : Env) (a : string) (i : nat) :
  item env (JStr a) i = Ok (li (label i) (shown a)).
Proof.
  unfold item, index, label, shown, or_else, li; simpl.
  destruct (nth_error questions i); destruct (a =? "")%string; reflexivity.
Qed.

Lemma map_from_texts (env : Env) (l : list string) :
  forall i, map_from (item env) i (map JStr l) = Ok (li_from i l).
Proof.
  induction l as [|a l IH]; intro i; simpl.
  - reflexivity.
  - rewrite item_text, IH. reflexivity.
Qed.

Lemma items_texts (env : Env) (l : list string) :
  items env (texts l) = Ok (li_from 0 l).
Proof. apply map_from_texts. Qed.

Lemma li_from_length (l : list string) :
  forall i, length (li_from i l) = length l.
Proof. induction l; intro i; simpl; [reflexivity | now rewrite IHl]. Qed.

Lemma li_from_nth (l : list string) :
  forall i k a,
    nth_error l k = Some a ->
    nth_error (li_from i l) k = Some (li (label (i + k)) (shown a)).
Proof.
  induction l as [|b l IH]; intros i k a H.
  - destruct k; discriminate.
  - destruct k as [|k]; simpl in *.
    + injection H as ->. now rewrite Nat.add_0_r.
    + rewrite (IH (S i) k a H). now rewrite Nat.add_succ_r.
Qed.

Lemma append_nil_r (a : string) : (a ++ "" = a)%string.
Proof. induction a as [|x a IH]; simpl; [reflexivity | now rewrite IH]. Qed.

Lemma concat_cons (x y : string) (r : list string) :
  String.concat "" (x :: y :: r) = (x ++ String.concat "" (y :: r))%string.
Proof. reflexivity. Qed.

(** [join("")] keeps every element of the array as a segment of the result. *)
Lemma concat_segment (x : string) (lis : list string) :
  In x lis -> exists a b, String.concat "" lis = (a ++ x ++ b)%string.
Proof.
  induction lis as [|x0 [|y r] IH]; intro H.
  - destruct H.
  - destruct H as [->|[]]. exists "", "". simpl. now rewrite append_nil_r.
  - rewrite concat_cons. destruct H as [->|H].
    + exists "", (String.concat "" (y :: r)). reflexivity.
    + destruct (IH H) as (a & b & E). rewrite E.
      exists (x0 ++ a)%string, b. now rewrite append_assoc.
Qed.

Lemma occurs_segment (x a b pre post : string) :
  occurs x (pre ++ (a ++ x ++ b) ++ post) = true.
Proof.
  rewrite (append_assoc a (x ++ b) post), (append_assoc x b post).
  rewrite <- (append_assoc pre a (x ++ b ++ post)).
  apply occurs_app.
Qed.

(** On text fields and an array of text the template is rendered, and every
    item of [answers.map] is a segment of the page. *)
Lemma feedbackHTML_texts (env : Env) (n v p : string) (l : list string) :
  exists html,
    feedbackHTML env (JStr n) (JStr v) (JStr p) (texts l) = Ok html /\
    forall x, In x (li_from 0 l) -> occurs x html = true.
Proof.
  unfold feedbackHTML. simpl to_string. cbv beta iota delta [rbind].
  rewrite items_texts. eexists. split; [reflexivity|].
  intros x H. destruct (concat_segment x _ H) as (a & b & E). rewrite E.
  repeat match goal with
         | |- occurs ?s (?pre ++ (?a ++ ?s ++ ?b) ++ ?post) = true =>
             apply occurs_segment
         | |- occurs ?s (?a ++ ?b ++ ?c) = true =>
             rewrite <- (append_assoc a b c)
         end.
Qed.

Lemma cast_elems_texts (l : list string) :
  cast_elems (map JStr l) = Some (map JStr l).
Proof. induction l as [|a l IH]; cbn; [reflexivity | now rewrite IH]. Qed.

(** On text fields and an array of text the schema cast changes nothing. *)
Lemma cast_texts (env : Env) (n v p : string) (l : list string) :
  cast (document env (JStr n) (JStr v) (JStr p) (texts l)) =
    Some (document env (JStr n) (JStr v) (JStr p) (texts l)).
Proof.
  unfold cast, document, texts. cbn [fb_name fb_vehicle fb_phone fb_answers
    fb_submittedAt cast_String cast_Strings].
  now rewrite cast_elems_texts.
Qed.

Lemma questions_length : length questions = 18%nat.
Proof. reflexivity. Qed.

Lemma question_at (i : nat) :
  (i < 18)%nat -> exists q, nth_error questions i = Some q.
Proof.
  intro H. destruct (nth_error questions i) as [q|] eqn:E; [now exists q|].
  apply nth_error_None in E. rewrite questions_length in E. lia.
Qed.

Lemma label_question (i : nat) (q : string) :
  nth_error questions i = Some q -> label i = q.
Proof. unfold label. now intros ->. Qed.


Lemma feedbackHTML_page (env : Env) (n v p : string) (l : list string) :
  feedbackHTML env (JStr n) (JStr v) (JStr p) (texts l) =
    Ok (page env n v p (li_from 0 l)).
Proof.
  unfold feedbackHTML. simpl to_string. cbv beta iota delta [rbind].
  rewrite items_texts. reflexivity.
Qed.

(** What the renderer yields on a submission of text values: one item per
    answer entry, in order, each a segment of the page. *)
Lemma render_texts (env : Env) (n v p : string) (l : list string) :
  exists lis html,
    items env (texts l) = Ok lis /\
    feedbackHTML env (JStr n) (JStr v) (JStr p) (texts l) = Ok html /\
    length lis = length l /\
    (forall i a, nth_error l i = Some a ->
       nth_error lis i = Some (li (label i) (shown a)) /\
       occurs (li (label i) (shown a)) html = true) /\
    (forall i, (length l <= i)%nat -> nth_error lis i = None).
Proof.
  destruct (feedbackHTML_texts env n v p l) as (html & Hhtml & Hseg).
  exists (li_from 0 l), html.
  split; [apply items_texts|]. split; [exact Hhtml|].
  split; [apply li_from_length|]. split.
  - intros i a H. pose proof (li_from_nth l 0 i a H) as E. simpl in E.
    split; [exact E|]. apply Hseg. eapply nth_error_In, E.
  - intros i H. apply nth_error_None. now rewrite li_from_length.
Qed.

(* ===================================================================== *)
(** ** The ways through the handler *)
(* ===================================================================== *)

Section Paths.

Variables (env : Env) (req : Request) (w : World).
Variables name vehicle phone answers : JValue.
Hypothesis Hbody :
  destructure env (body req) = Ok (name, vehicle, phone, answers).

Let doc : Feedback := document env name vehicle phone answers.

Lemma path_incomplete :
  incomplete name vehicle phone answers = true ->
  catchAsync (send_feedback env) req w =
    (Next (AppError env "Incomplete data. All fields required." 400), w).
Proof.
  intro Hinc. unfold catchAsync, send_feedback, bind, lift, ret.
  rewrite Hbody, Hinc. reflexivity.
Qed.

Lemma path_save_rejects (f : Fault) :
  incomplete name vehicle phone answers = false ->
  save_fault env doc = Some f ->
  catchAsync (send_feedback env) req w =
    (Next (error_of_fault f),
     {| store := store w; outbox := outbox w;
        calls := calls w ++ [CallSave doc] |}).
Proof.
  intros Hinc Hsave. unfold catchAsync, send_feedback, bind, lift, ret, save.
  rewrite Hbody, Hinc. unfold save_fault, doc, document in *.
  match goal with |- context [cast ?d] => destruct (cast d) as [stored|] end.
  - rewrite Hsave. reflexivity.
  - injection Hsave as <-. reflexivity.
Qed.

Lemma path_render_throws (stored : Feedback) (e : JsError) :
  incomplete name vehicle phone answers = false ->
  cast doc = Some stored ->
  save_rejects env = None ->
  feedbackHTML env name vehicle phone answers = Throw e ->
  catchAsync (send_feedback env) req w =
    (Next e,
     {| store := store w ++ [stored]; outbox := outbox w;
        calls := calls w ++ [CallSave doc] |}).
Proof.
  intros Hinc Hcast Hsave Hhtml.
  unfold catchAsync, send_feedback, bind, lift, ret, save.
  rewrite Hbody, Hinc. unfold doc, document in *. rewrite Hcast, Hsave. cbn.
  rewrite Hhtml. reflexivity.
Qed.

(** When the page was rendered, the subject of the message is rendered too:
    both convert [name] and [vehicle]. *)
Lemma mail_options_defined (html : string) :
  feedbackHTML env name vehicle phone answers = Ok html ->
  exists n v,
    to_string (captured_stack env) name = Ok n /\
    to_string (captured_stack env) vehicle = Ok v /\
    mail_options env name vehicle html =
      Ok {| mail_from := dquote ++ "Hyundai Feedback" ++ dquote
                         ++ " <" ++ env_text (COMPANY_EMAIL env) ++ ">";
            mail_to := COMPANY_EMAIL env;
            mail_subject := "New Feedback from " ++ n ++ " (" ++ v ++ ")";
            mail_html := html |}.
Proof.
  unfold feedbackHTML, mail_options. intro H.
  destruct (to_string (captured_stack env) name) as [n|] eqn:En;
    [|discriminate].
  destruct (to_string (captured_stack env) vehicle) as [v|] eqn:Ev;
    [|discriminate].
  exists n, v. repeat split.
Qed.

Lemma path_sendMail_rejects
    (stored : Feedback) (html : string) (m : Mail) (f : Fault) :
  incomplete name vehicle phone answers = false ->
  cast doc = Some stored ->
  save_rejects env = None ->
  feedbackHTML env name vehicle phone answers = Ok html ->
  mail_options env name vehicle html = Ok m ->
  sendMail_rejects env = Some f ->
  catchAsync (send_feedback env) req w =
    (Next (AppError env "Feedback saved but email sending failed" 500),
     {| store := store w ++ [stored]; outbox := outbox w;
        calls := (calls w ++ [CallSave doc]) ++ [CallSendMail m] |}).
Proof.
  intros Hinc Hcast Hsave Hhtml Hopts Hmail.
  unfold catchAsync, send_feedback, bind, lift, ret, save, try_catch, sendMail.
  rewrite Hbody, Hinc. unfold doc, document in *. rewrite Hcast, Hsave. cbn.
  rewrite Hhtml, Hopts, Hmail. reflexivity.
Qed.

Lemma path_delivered (stored : Feedback) (html : string) (m : Mail) :
  incomplete name vehicle phone answers = false ->
  cast doc = Some stored ->
  save_rejects env = None ->
  feedbackHTML env name vehicle phone answers = Ok html ->
  mail_options env name vehicle html = Ok m ->
  sendMail_rejects env = None ->
  catchAsync (send_feedback env) req w =
    (Responded
       {| res_status := 200;
          res_payload :=
            Json [("success", JBool true);
                  ("message",
                   JStr "Feedback saved and email sent successfully")] |},
     {| store := store w ++ [stored]; outbox := outbox w ++ [m];
        calls := (calls w ++ [CallSave doc]) ++ [CallSendMail m] |}).
Proof.
  intros Hinc Hcast Hsave Hhtml Hopts Hmail.
  unfold catchAsync, send_feedback, bind, lift, ret, save, try_catch, sendMail.
  rewrite Hbody, Hinc. unfold doc, document in *. rewrite Hcast, Hsave. cbn.
  rewrite Hhtml, Hopts, Hmail. reflexivity.
Qed.

End Paths.

(* ===================================================================== *)
(** ** The error handler on the errors of the application *)
(* ===================================================================== *)

Lemma or_else_defined (a b : JValue) :
  truthy b = true -> is_undefined (or_else a b) = false.
Proof.
  intro Hb. unfold or_else. destruct (truthy a) eqn:Ha.
  - destruct a; try discriminate; reflexivity.
  - destruct b; try discriminate; reflexivity.
Qed.

(** The body that the error handler sends: three properties always, and
    [stack] after them exactly in development mode. *)
Lemma errorHandler_payload (env : Env) (err : JsError) :
  res_payload (errorHandler env err) =
    Json ([("success", JBool false);
           ("status", or_else (status err) (JStr "error"));
           ("message",
            JStr (if (message err =? "")%string
                  then "Internal Server Error" else message err))]
          ++ (if development env then [("stack", JStr (stack err))] else [])).
Proof.
  unfold errorHandler, json. cbn [res_payload filter snd].
  rewrite (or_else_defined (status err) (JStr "error") eq_refl).
  destruct (development env); reflexivity.
Qed.

Lemma errorHandler_fields (env : Env) (err : JsError) :
  field (errorHandler env err) "success" = JBool false /\
  field (errorHandler env err) "status" = or_else (status err) (JStr "error") /\
  field (errorHandler env err) "message" =
    JStr (if (message err =? "")%string
          then "Internal Server Error" else message err).
Proof.
  unfold field. rewrite errorHandler_payload. repeat split.
Qed.

Lemma app_send_feedback (env : Env) (req : Request) (w : World) :
  layer env req = SendFeedbackRoute ->
  app env req w =
    (finish env (fst (catchAsync (send_feedback env) req w)),
     snd (catchAsync (send_feedback env) req w)).
Proof.
  intro H. unfold app. rewrite H.
  destruct (catchAsync (send_feedback env) req w). reflexivity.
Qed.

(** A request whose guard fires is answered with 400 and leaves the world
    as it was. *)
Lemma rejected (env : Env) (req : Request) (w : World)
    (name vehicle phone answers : JValue) :
  layer env req = SendFeedbackRoute ->
  destructure env (body req) = Ok (name, vehicle, phone, answers) ->
  incomplete name vehicle phone answers = true ->
  exists r,
    app env req w = (r, w) /\
    res_status r = 400 /\
    field r "success" = JBool false /\
    field r "status" = JStr "fail" /\
    field r "message" = JStr "Incomplete data. All fields required.".
Proof.
  intros Hl Hb Hinc.
  rewrite (app_send_feedback env req w Hl).
  rewrite (path_incomplete env req w _ _ _ _ Hb Hinc). cbn [fst snd finish].
  eexists. split; [reflexivity|].
  destruct (errorHandler_fields env
              (AppError env "Incomplete data. All fields required." 400))
    as (H1 & H2 & H3).
  repeat split; assumption.
Qed.

(* ===================================================================== *)
(** ** The notification renderer *)
(* ===================================================================== *)

(** C1, as the specification states it, fails: on a submission with five
    answers the validator accepts, the renderer yields five items, and the
    page mentions neither "Not Answered" nor the sixth question. *)
Lemma fewer_answers_not_padded :
  exists lis html,
    incomplete (JStr "A. Singh") (JStr "KA01AB1234") (JStr "9999999999")
      (texts Samples.five) = false /\
    items Samples.env_ok (texts Samples.five) = Ok lis /\
    feedbackHTML Samples.env_ok (JStr "A. Singh") (JStr "KA01AB1234")
      (JStr "9999999999") (texts Samples.five) = Ok html /\
    length lis = 5%nat /\
    occurs "Not Answered" html = false /\
    occurs "How would you rate the overall cleanliness of the Dealer Facility?"
      html = false.
Proof.
  do 2 eexists. split; [reflexivity|].
  split; [vm_compute; reflexivity|]. split; [vm_compute; reflexivity|].
  split; [reflexivity|]. split; vm_compute; reflexivity.
Qed.

(** C1 (amended).  For every submission of text values whose answers
    sequence has fewer entries than the 18 questions, rendering does not
    throw and the message body is the page whose list holds exactly one
    item per answer entry and nothing else: item [i] pairs question [i] with
    answer [i], shown as "Not Answered" when the entry is empty text; a
    question without an answer entry has no item. *)
Theorem render_fewer_answers (env : Env) (n v p : string) (l : list string) :
  (length l < 18)%nat ->
  exists lis,
    items env (texts l) = Ok lis /\
    feedbackHTML env (JStr n) (JStr v) (JStr p) (texts l) =
      Ok (page env n v p lis) /\
    length lis = length l /\
    (forall i a, nth_error l i = Some a ->
       exists q, nth_error questions i = Some q /\
                 nth_error lis i = Some (li q (shown a)) /\
                 occurs (li q (shown a)) (page env n v p lis) = true) /\
    (forall i, (length l <= i)%nat -> nth_error lis i = None).
Proof.
  intro Hlen.
  destruct (render_texts env n v p l) as (lis & html & H1 & H2 & H3 & H4 & H5).
  assert (Hpage : html = page env n v p lis).
  { rewrite items_texts in H1. injection H1 as <-.
    rewrite feedbackHTML_page in H2. now injection H2 as <-. }
  subst html.
  exists lis. repeat (split; [assumption|]). split; [|assumption].
  intros i a H.
  assert (Hi : (i < 18)%nat).
  { assert (i < length l)%nat by (apply nth_error_Some; congruence). lia. }
  destruct (question_at i Hi) as (q & Hq). exists q. split; [exact Hq|].
  rewrite <- (label_question i q Hq). now apply H4.
Qed.

Lemma render_fewer_answers_witness :
  (length Samples.five < 18)%nat /\
  exists lis,
    items Samples.env_ok (texts Samples.five) = Ok lis /\
    feedbackHTML Samples.env_ok (JStr "A. Singh") (JStr "KA01AB1234")
      (JStr "9999999999") (texts Samples.five) =
      Ok (page Samples.env_ok "A. Singh" "KA01AB1234" "9999999999" lis) /\
    length lis = length Samples.five /\
    (forall i a, nth_error Samples.five i = Some a ->
       exists q, nth_error questions i = Some q /\
                 nth_error lis i = Some (li q (shown a)) /\
                 occurs (li q (shown a))
                   (page Samples.env_ok "A. Singh" "KA01AB1234" "9999999999"
                      lis) = true) /\
    (forall i, (length Samples.five <= i)%nat -> nth_error lis i = None).
Proof.
  split; [simpl; lia|].
  apply (render_fewer_answers Samples.env_ok "A. Singh" "KA01AB1234"
           "9999999999" Samples.five).
  simpl; lia.
Defined.




(** C10.  For every submission of text values whose answers sequence holds
    the empty text at position [i], the item rendered for the question at
    position [i] shows "Not Answered", and that item is on the page. *)
Theorem empty_answer_not_answered
    (env : Env) (n v p : string) (l : list string) (i : nat) (q : string) :
  nth_error l i = Some "" ->
  nth_error questions i = Some q ->
  exists lis html,
    items env (texts l) = Ok lis /\
    feedbackHTML env (JStr n) (JStr v) (JStr p) (texts l) = Ok html /\
    nth_error lis i = Some (li q "Not Answered") /\
    occurs (li q "Not Answered") html = true.
Proof.
  intros Ha Hq.
  destruct (render_texts env n v p l) as (lis & html & H1 & H2 & _ & H4 & _).
  exists lis, html. split; [exact H1|]. split; [exact H2|].
  destruct (H4 i "" Ha) as (Hx & Ho).
  rewrite (label_question i q Hq) in Hx, Ho. now split.
Qed.

Lemma empty_answer_not_answered_witness :
  nth_error ["Good"; ""; "Fair"] 1 = Some "" /\
  nth_error questions 1 =
    Some "How would you rate the quality of maintenance & repair work done on your car?" /\
  exists lis html,
    items Samples.env_ok (texts ["Good"; ""; "Fair"]) = Ok lis /\
    feedbackHTML Samples.env_ok (JStr "A. Singh") (JStr "KA01AB1234")
      (JStr "9999999999") (texts ["Good"; ""; "Fair"]) = Ok html /\
    nth_error lis 1 =
      Some (li "How would you rate the quality of maintenance & repair work done on your car?"
              "Not Answered") /\
    occurs (li "How would you rate the quality of maintenance & repair work done on your car?"
              "Not Answered") html = true.
Proof.
  split; [reflexivity|]. split; [reflexivity|].
  apply (empty_answer_not_answered Samples.env_ok "A. Singh" "KA01AB1234"
           "9999999999" ["Good"; ""; "Fair"] 1);
    reflexivity.
Defined.

(* ===================================================================== *)
(** ** The validator *)
(* ===================================================================== *)

(** C3, as the specification states it, fails for the empty container: a
    payload whose [answers] is the empty array passes the guard, is stored
    and is answered with 200. *)
Lemma empty_answers_accepted :
  incomplete (JStr "A. Singh") (JStr "KA01AB1234") (JStr "9999999999")
    (JArr []) = false /\
  res_status
    (fst (app Samples.env_ok (Samples.submission (JArr []))
            Samples.empty_world)) = 200 /\
  store
    (snd (app Samples.env_ok (Samples.submission (JArr []))
            Samples.empty_world)) =
    [document Samples.env_ok (JStr "A. Singh") (JStr "KA01AB1234")
       (JStr "9999999999") (JArr [])].
Proof. repeat split. Qed.

(** C3 (amended).  For every payload in which name, vehicle or phone is
    present but is the empty text, the request is answered with 400,
    status "fail", and nothing is stored, sent or attempted: the world is
    unchanged. *)
Theorem empty_text_rejected
    (env : Env) (req : Request) (w : World) (fs : list (string * JValue)) :
  layer env req = SendFeedbackRoute ->
  body req = JObj fs ->
  lookup "name" fs = JStr "" \/ lookup "vehicle" fs = JStr "" \/
  lookup "phone" fs = JStr "" ->
  exists r,
    app env req w = (r, w) /\
    res_status r = 400 /\
    field r "success" = JBool false /\
    field r "status" = JStr "fail" /\
    field r "message" = JStr "Incomplete data. All fields required.".
Proof.
  intros Hl Hb Hempty.
  apply (rejected env req w (lookup "name" fs) (lookup "vehicle" fs)
           (lookup "phone" fs) (lookup "answers" fs) Hl).
  - rewrite Hb. reflexivity.
  - unfold incomplete.
    destruct Hempty as [E|[E|E]]; rewrite E; cbn [truthy String.eqb negb];
      rewrite ?orb_true_r; reflexivity.
Qed.

Lemma empty_text_rejected_witness :
  layer Samples.env_ok
    (Samples.post [("name", JStr "A. Singh"); ("vehicle", JStr "");
                       ("phone", JStr "9999999999");
                       ("answers", texts Samples.five)]) = SendFeedbackRoute /\
  exists r,
    app Samples.env_ok
      (Samples.post [("name", JStr "A. Singh"); ("vehicle", JStr "");
                     ("phone", JStr "9999999999");
                     ("answers", texts Samples.five)])
      Samples.empty_world = (r, Samples.empty_world) /\
    res_status r = 400 /\
    field r "success" = JBool false /\
    field r "status" = JStr "fail" /\
    field r "message" = JStr "Incomplete data. All fields required.".
Proof.
  split; [reflexivity|].
  apply (empty_text_rejected Samples.env_ok _ Samples.empty_world
           [("name", JStr "A. Singh"); ("vehicle", JStr "");
            ("phone", JStr "9999999999"); ("answers", texts Samples.five)]).
  - reflexivity.
  - reflexivity.
  - right; left; reflexivity.
Defined.

(** C4.  For every payload that misses name, vehicle, phone or answers, the
    request is answered with 400 and the body
    [{success: false, status: "fail", message}], and the world is unchanged:
    no document is stored and no write is attempted. *)
Theorem missing_field_rejected
    (env : Env) (req : Request) (w : World) (fs : list (string * JValue)) :
  layer env req = SendFeedbackRoute ->
  body req = JObj fs ->
  lookup "name" fs = JUndefined \/ lookup "vehicle" fs = JUndefined \/
  lookup "phone" fs = JUndefined \/ lookup "answers" fs = JUndefined ->
  exists r,
    app env req w = (r, w) /\
    res_status r = 400 /\
    field r "success" = JBool false /\
    field r "status" = JStr "fail" /\
    field r "message" = JStr "Incomplete data. All fields required.".
Proof.
  intros Hl Hb Hmiss.
  apply (rejected env req w (lookup "name" fs) (lookup "vehicle" fs)
           (lookup "phone" fs) (lookup "answers" fs) Hl).
  - rewrite Hb. reflexivity.
  - unfold incomplete.
    destruct Hmiss as [E|[E|[E|E]]]; rewrite E; cbn [truthy negb];
      rewrite ?orb_true_r; reflexivity.
Qed.

Lemma missing_field_rejected_witness :
  lookup "phone" [("name", JStr "A. Singh"); ("vehicle", JStr "KA01AB1234");
                  ("answers", texts Samples.five)] = JUndefined /\
  exists r,
    app Samples.env_ok
      (Samples.post [("name", JStr "A. Singh"); ("vehicle", JStr "KA01AB1234");
                     ("answers", texts Samples.five)])
      Samples.empty_world = (r, Samples.empty_world) /\
    res_status r = 400 /\
    field r "success" = JBool false /\
    field r "status" = JStr "fail" /\
    field r "message" = JStr "Incomplete data. All fields required.".
Proof.
  split; [reflexivity|].
  apply (missing_field_rejected Samples.env_ok _ Samples.empty_world
           [("name", JStr "A. Singh"); ("vehicle", JStr "KA01AB1234");
            ("answers", texts Samples.five)]).
  - reflexivity.
  - reflexivity.
  - right; right; left; reflexivity.
Defined.

(* ===================================================================== *)
(** ** Persistence and delivery *)
(* ===================================================================== *)

(** C5.  For every request that passes validation and is rendered, when
    [save()] succeeds (the document is cast and the store accepts it) and
    [sendMail()] rejects, the document is in the store afterwards, nothing
    is delivered, and the response is 500 with
    [success: false], [status: "error"] and the message
    "Feedback saved but email sending failed", which contains "saved" and
    "failed". *)
Theorem saved_but_not_sent
    (env : Env) (req : Request) (w : World)
    (name vehicle phone answers : JValue) (stored : Feedback)
    (html : string) (f : Fault) :
  layer env req = SendFeedbackRoute ->
  accepted env req name vehicle phone answers ->
  cast (document env name vehicle phone answers) = Some stored ->
  save_rejects env = None ->
  feedbackHTML env name vehicle phone answers = Ok html ->
  sendMail_rejects env = Some f ->
  exists r w' msg,
    app env req w = (r, w') /\
    store w' = (store w ++ [stored])%list /\
    In stored (store w') /\
    outbox w' = outbox w /\
    res_status r = 500 /\
    field r "success" = JBool false /\
    field r "status" = JStr "error" /\
    field r "message" = JStr msg /\
    msg = "Feedback saved but email sending failed" /\
    occurs "saved" msg = true /\
    occurs "failed" msg = true.
Proof.
  intros Hl [Hb Hinc] Hcast Hsave Hhtml Hmail.
  destruct (mail_options_defined env name vehicle phone answers html Hhtml)
    as (n & v & _ & _ & Hopts).
  rewrite (app_send_feedback env req w Hl).
  rewrite (path_sendMail_rejects env req w _ _ _ _ Hb stored html _ f
             Hinc Hcast Hsave Hhtml Hopts Hmail).
  cbn [fst snd finish].
  destruct (errorHandler_fields env
              (AppError env "Feedback saved but email sending failed" 500))
    as (H1 & H2 & H3).
  do 3 eexists. split; [reflexivity|]. cbn [store outbox].
  split; [reflexivity|]. split; [apply in_or_app; right; now left|].
  split; [reflexivity|]. split; [reflexivity|].
  split; [exact H1|]. split; [exact H2|]. split; [exact H3|].
  repeat split.
Qed.

Lemma saved_but_not_sent_witness :
  accepted Samples.env_mail_down (Samples.submission (texts Samples.eighteen))
    (JStr "A. Singh") (JStr "KA01AB1234") (JStr "9999999999")
    (texts Samples.eighteen) /\
  cast (document Samples.env_mail_down (JStr "A. Singh") (JStr "KA01AB1234")
          (JStr "9999999999") (texts Samples.eighteen)) =
    Some (document Samples.env_mail_down (JStr "A. Singh") (JStr "KA01AB1234")
            (JStr "9999999999") (texts Samples.eighteen)) /\
  exists r w' msg,
    app Samples.env_mail_down (Samples.submission (texts Samples.eighteen))
      Samples.empty_world = (r, w') /\
    store w' =
      (store Samples.empty_world ++
       [document Samples.env_mail_down (JStr "A. Singh") (JStr "KA01AB1234")
          (JStr "9999999999") (texts Samples.eighteen)])%list /\
    In (document Samples.env_mail_down (JStr "A. Singh") (JStr "KA01AB1234")
          (JStr "9999999999") (texts Samples.eighteen)) (store w') /\
    outbox w' = outbox Samples.empty_world /\
    res_status r = 500 /\
    field r "success" = JBool false /\
    field r "status" = JStr "error" /\
    field r "message" = JStr msg /\
    msg = "Feedback saved but email sending failed" /\
    occurs "saved" msg = true /\
    occurs "failed" msg = true.
Proof.
  split; [split; reflexivity|]. split; [reflexivity|].
  eapply (saved_but_not_sent Samples.env_mail_down
            (Samples.submission (texts Samples.eighteen)) Samples.empty_world
            (JStr "A. Singh") (JStr "KA01AB1234") (JStr "9999999999")
            (texts Samples.eighteen)).
  - reflexivity.
  - split; reflexivity.
  - reflexivity.
  - reflexivity.
  - vm_compute; reflexivity.
  - reflexivity.
Defined.

(** C6.  For every request that passes validation, when [save()] rejects,
    with the fault of the store or with the [ValidationError] of a document
    that cannot be cast, the response is 500 with [success: false],
    [status: "error"] and the message of the fault, the store is unchanged,
    and [sendMail] is not called: the only call added is the failed
    [save]. *)
Theorem store_fault_aborts
    (env : Env) (req : Request) (w : World)
    (name vehicle phone answers : JValue) (f : Fault) :
  layer env req = SendFeedbackRoute ->
  accepted env req name vehicle phone answers ->
  save_fault env (document env name vehicle phone answers) = Some f ->
  exists r w',
    app env req w = (r, w') /\
    res_status r = 500 /\
    field r "success" = JBool false /\
    field r "status" = JStr "error" /\
    field r "message" =
      JStr (if (fault_message f =? "")%string
            then "Internal Server Error" else fault_message f) /\
    store w' = store w /\
    outbox w' = outbox w /\
    calls w' =
      (calls w ++ [CallSave (document env name vehicle phone answers)])%list /\
    (forall m, In (CallSendMail m) (calls w') -> In (CallSendMail m) (calls w)).
Proof.
  intros Hl [Hb Hinc] Hsave.
  rewrite (app_send_feedback env req w Hl).
  rewrite (path_save_rejects env req w _ _ _ _ Hb f Hinc Hsave).
  cbn [fst snd finish].
  destruct (errorHandler_fields env (error_of_fault f)) as (H1 & H2 & H3).
  do 2 eexists. split; [reflexivity|]. cbn [store outbox calls].
  split; [reflexivity|]. split; [exact H1|]. split; [exact H2|].
  split; [exact H3|]. repeat (split; [reflexivity|]).
  intros m Hin. apply in_app_or in Hin. destruct Hin as [Hin|[Hin|[]]].
  - exact Hin.
  - discriminate.
Qed.

Lemma store_fault_aborts_witness :
  accepted Samples.env_store_down (Samples.submission (texts Samples.eighteen))
    (JStr "A. Singh") (JStr "KA01AB1234") (JStr "9999999999")
    (texts Samples.eighteen) /\
  exists r w',
    app Samples.env_store_down (Samples.submission (texts Samples.eighteen))
      Samples.empty_world = (r, w') /\
    res_status r = 500 /\
    field r "success" = JBool false /\
    field r "status" = JStr "error" /\
    field r "message" =
      JStr (if ("buffering timed out" =? "")%string
            then "Internal Server Error" else "buffering timed out") /\
    store w' = store Samples.empty_world /\
    outbox w' = outbox Samples.empty_world /\
    calls w' =
      (calls Samples.empty_world ++
       [CallSave (document Samples.env_store_down (JStr "A. Singh")
                    (JStr "KA01AB1234") (JStr "9999999999")
                    (texts Samples.eighteen))])%list /\
    (forall m, In (CallSendMail m) (calls w') ->
               In (CallSendMail m) (calls Samples.empty_world)).
Proof.
  split; [split; reflexivity|].
  apply (store_fault_aborts Samples.env_store_down
           (Samples.submission (texts Samples.eighteen)) Samples.empty_world
           (JStr "A. Singh") (JStr "KA01AB1234") (JStr "9999999999")
           (texts Samples.eighteen)
           {| fault_message := "buffering timed out";
              fault_stack := "MongooseError: buffering timed out" |}).
  - reflexivity.
  - split; reflexivity.
  - reflexivity.
Defined.

(** C7.  For every payload of non-empty text name, vehicle and phone and an
    array of text answers, when [save()] and [sendMail()] both succeed the
    response is 200 with the body
    [{success: true, message: "Feedback saved and email sent successfully"}],
    exactly one document is added to the store and it holds the submitted
    fields, and exactly one message is delivered, addressed to
    [COMPANY_EMAIL], whose subject contains the name and the vehicle. *)
Theorem saved_and_sent
    (env : Env) (req : Request) (w : World) (fs : list (string * JValue))
    (n v p : string) (l : list string) :
  layer env req = SendFeedbackRoute ->
  body req = JObj fs ->
  lookup "name" fs = JStr n -> n <> "" ->
  lookup "vehicle" fs = JStr v -> v <> "" ->
  lookup "phone" fs = JStr p -> p <> "" ->
  lookup "answers" fs = texts l ->
  save_rejects env = None ->
  sendMail_rejects env = None ->
  exists w' m,
    app env req w =
      ({| res_status := 200;
          res_payload :=
            Json [("success", JBool true);
                  ("message",
                   JStr "Feedback saved and email sent successfully")] |},
       w') /\
    store w' =
      (store w ++ [{| fb_name := JStr n; fb_vehicle := JStr v;
                      fb_phone := JStr p; fb_answers := texts l;
                      fb_submittedAt := Date_now env |}])%list /\
    outbox w' = (outbox w ++ [m])%list /\
    mail_to m = COMPANY_EMAIL env /\
    occurs n (mail_subject m) = true /\
    occurs v (mail_subject m) = true.
Proof.
  intros Hl Hb Hn Hn0 Hv Hv0 Hp Hp0 Ha Hsave Hmail.
  assert (Hd : destructure env (body req) =
               Ok (JStr n, JStr v, JStr p, texts l)).
  { rewrite Hb. cbn [destructure get]. now rewrite Hn, Hv, Hp, Ha. }
  assert (Hinc : incomplete (JStr n) (JStr v) (JStr p) (texts l) = false).
  { unfold incomplete, texts. cbn [truthy].
    apply String.eqb_neq in Hn0, Hv0, Hp0. now rewrite Hn0, Hv0, Hp0. }
  destruct (feedbackHTML_texts env n v p l) as (html & Hhtml & _).
  rewrite (app_send_feedback env req w Hl).
  rewrite (path_delivered env req w _ _ _ _ Hd _ html _
             Hinc (cast_texts env n v p l) Hsave Hhtml eq_refl Hmail).
  cbn [fst snd finish].
  do 2 eexists. split; [reflexivity|]. cbn [store outbox].
  split; [reflexivity|]. split; [reflexivity|]. cbn [mail_to mail_subject].
  split; [reflexivity|]. split.
  - apply occurs_app.
  - rewrite <- (append_assoc "New Feedback from " n _).
    rewrite <- (append_assoc _ " (" _). apply occurs_app.
Qed.

Lemma saved_and_sent_witness :
  lookup "name" [("name", JStr "A. Singh"); ("vehicle", JStr "KA01AB1234");
                 ("phone", JStr "9999999999");
                 ("answers", texts Samples.eighteen)] = JStr "A. Singh" /\
  "A. Singh" <> "" /\
  exists w' m,
    app Samples.env_ok (Samples.submission (texts Samples.eighteen))
      Samples.empty_world =
      ({| res_status := 200;
          res_payload :=
            Json [("success", JBool true);
                  ("message",
                   JStr "Feedback saved and email sent successfully")] |},
       w') /\
    store w' =
      (store Samples.empty_world ++
       [{| fb_name := JStr "A. Singh"; fb_vehicle := JStr "KA01AB1234";
           fb_phone := JStr "9999999999";
           fb_answers := texts Samples.eighteen;
           fb_submittedAt := Date_now Samples.env_ok |}])%list /\
    outbox w' = (outbox Samples.empty_world ++ [m])%list /\
    mail_to m = COMPANY_EMAIL Samples.env_ok /\
    occurs "A. Singh" (mail_subject m) = true /\
    occurs "KA01AB1234" (mail_subject m) = true.
Proof.
  split; [reflexivity|]. split; [discriminate|].
  apply (saved_and_sent Samples.env_ok
           (Samples.submission (texts Samples.eighteen)) Samples.empty_world
           [("name", JStr "A. Singh"); ("vehicle", JStr "KA01AB1234");
            ("phone", JStr "9999999999");
            ("answers", texts Samples.eighteen)]
           "A. Singh" "KA01AB1234" "9999999999" Samples.eighteen);
    first [reflexivity | discriminate].
Defined.

(* ===================================================================== *)
(** ** Unmatched routes and the shape of error responses *)
(* ===================================================================== *)





(** C9.  For every error that reaches the error handler, the body of the
    response has the properties [success], [status] and [message], in this
    order, followed by [stack] exactly when [NODE_ENV] is "development";
    otherwise the body has no [stack] property, whatever the error. *)
Theorem error_body_shape (env : Env) (err : JsError) :
  (exists st msg,
     res_payload (errorHandler env err) =
       Json ([("success", JBool false); ("status", st); ("message", JStr msg)]
             ++ (if development env
                 then [("stack", JStr (stack err))] else []))) /\
  (has_field (errorHandler env err) "stack" = true <->
   NODE_ENV env = Some "development") /\
  (NODE_ENV env <> Some "development" ->
   field (errorHandler env err) "stack" = JUndefined).
Proof.
  assert (Hdev : development env = true <-> NODE_ENV env = Some "development").
  { unfold development. destruct (NODE_ENV env) as [s|].
    - rewrite String.eqb_eq. split; congruence.
    - split; discriminate. }
  split; [|split].
  - do 2 eexists. apply errorHandler_payload.
  - rewrite <- Hdev. unfold has_field. rewrite errorHandler_payload.
    destruct (development env); cbn; split; congruence.
  - intro Hno. unfold field. rewrite errorHandler_payload.
    destruct (development env) eqn:E; [|reflexivity].
    exfalso. apply Hno, Hdev. reflexivity.
Qed.

(* ===================================================================== *)
(** ** Conversion to text *)
(* ===================================================================== *)

Lemma to_string_array (trace : string) (l : list JValue) :
  to_string trace (JArr l) = join trace l.
Proof.
  induction l as [|x rest IH]; [reflexivity|].
  cbn [to_string join] in *. unfold elem_string. rewrite <- IH. reflexivity.
Qed.

Lemma elem_string_spec (trace : string) (x : JValue) :
  conversion_spec trace (convertible x) (to_string trace x) ->
  conversion_spec trace (convertible x) (elem_string trace x).
Proof.
  destruct x; try exact (fun H => H); intros _; now exists "".
Qed.

Lemma join_spec (trace : string) (l : list JValue) :
  Forall (fun x => conversion_spec trace (convertible x) (to_string trace x)) l ->
  conversion_spec trace (forallb convertible l) (join trace l).
Proof.
  induction 1 as [|x rest Hx _ IH]; [now exists ""|].
  apply elem_string_spec in Hx. cbn [join forallb].
  unfold conversion_spec in *.
  destruct (convertible x).
  - destruct Hx as (s & ->). cbn [rbind andb].
    destruct rest as [|y rest']; [now exists s|].
    destruct (forallb convertible (y :: rest')).
    + destruct IH as (r & ->). now eexists.
    + now rewrite IH.
  - now rewrite Hx.
Qed.

Lemma to_string_spec (trace : string) (v : JValue) :
  conversion_spec trace (convertible v) (to_string trace v).
Proof.
  induction v using JValue_nested_ind; try (now eexists).
  - destruct b; now eexists.
  - rewrite to_string_array. now apply join_spec.
  - cbn [to_string convertible]. unfold conversion_spec, conversion_error.
    destruct (has_own "toString" fields); cbn [negb]; [reflexivity | now eexists].
Qed.

Lemma to_string_convertible (trace : string) (v : JValue) :
  convertible v = true -> exists s, to_string trace v = Ok s.
Proof.
  intro H. pose proof (to_string_spec trace v) as S.
  unfold conversion_spec in S. now rewrite H in S.
Qed.

Lemma to_string_throws (trace : string) (v : JValue) :
  convertible v = false -> to_string trace v = Throw (conversion_error trace).
Proof.
  intro H. pose proof (to_string_spec trace v) as S.
  unfold conversion_spec in S. now rewrite H in S.
Qed.

Lemma or_else_convertible (a b : JValue) :
  convertible b = true -> truthy a = false -> convertible (or_else a b) = true.
Proof. intros Hb Ha. unfold or_else. now rewrite Ha. Qed.

Lemma shown_convertible (ans : JValue) :
  convertible (or_else ans (JStr "Not Answered")) = convertible ans.
Proof.
  unfold or_else. destruct (truthy ans) eqn:E; [reflexivity|].
  destruct ans; try discriminate; reflexivity.
Qed.

(* ===================================================================== *)
(** ** The renderer on arbitrary JSON values *)
(* ===================================================================== *)

Lemma index_label (trace : string) (i : nat) :
  to_string trace (index questions i) = Ok (label i).
Proof. unfold index, label. destruct (nth_error questions i); reflexivity. Qed.

Lemma item_convertible (env : Env) (ans : JValue) (i : nat) :
  convertible ans = true ->
  exists a,
    to_string (captured_stack env) (or_else ans (JStr "Not Answered")) = Ok a /\
    item env ans i = Ok (li (label i) a).
Proof.
  intro H. rewrite <- shown_convertible in H.
  destruct (to_string_convertible (captured_stack env) _ H) as (a & Ha).
  exists a. split; [exact Ha|].
  unfold item. rewrite index_label, Ha. reflexivity.
Qed.

Lemma item_throws (env : Env) (ans : JValue) (i : nat) :
  convertible ans = false ->
  item env ans i = Throw (conversion_error (captured_stack env)).
Proof.
  intro H. rewrite <- shown_convertible in H.
  unfold item. rewrite index_label, (to_string_throws _ _ H). reflexivity.
Qed.

Lemma map_from_convertible (env : Env) (l : list JValue) :
  forall i,
    forallb convertible l = true ->
    exists lis,
      map_from (item env) i l = Ok lis /\
      length lis = length l /\
      forall k x, nth_error l k = Some x ->
        exists s, item env x (i + k) = Ok s /\ nth_error lis k = Some s.
Proof.
  induction l as [|y l IH]; intros i H.
  - exists []. split; [reflexivity|]. split; [reflexivity|].
    intros [|k] x; discriminate.
  - cbn [forallb] in H. apply andb_true_iff in H. destruct H as (Hy & Hl).
    destruct (item_convertible env y i Hy) as (a & _ & Hitem).
    destruct (IH (S i) Hl) as (lis & Hmap & Hlen & Hnth).
    exists (li (label i) a :: lis). cbn [map_from]. rewrite Hitem, Hmap.
    split; [reflexivity|]. split; [cbn [length]; now rewrite Hlen|].
    intros [|k] x Hx; cbn [nth_error] in *.
    + injection Hx as <-. rewrite Nat.add_0_r. now exists (li (label i) a).
    + destruct (Hnth k x Hx) as (s & Hs & Hk). exists s.
      rewrite Nat.add_succ_r. now split.
Qed.

Lemma map_from_throws (env : Env) (l : list JValue) :
  forall i,
    forallb convertible l = false ->
    map_from (item env) i l = Throw (conversion_error (captured_stack env)).
Proof.
  induction l as [|y l IH]; intros i H; [discriminate|].
  cbn [forallb map_from] in *. destruct (convertible y) eqn:Hy.
  - destruct (item_convertible env y i Hy) as (a & _ & ->).
    cbn [rbind]. now rewrite (IH (S i) H).
  - now rewrite (item_throws env y i Hy).
Qed.

Lemma feedbackHTML_spec (env : Env) (name vehicle phone answers : JValue) :
  if renders name vehicle phone answers
  then exists html, feedbackHTML env name vehicle phone answers = Ok html
  else exists e, feedbackHTML env name vehicle phone answers = Throw e /\
                 render_error env e.
Proof.
  unfold renders, feedbackHTML, render_error.
  destruct (convertible name) eqn:Hn; cbn [andb];
    [destruct (to_string_convertible (captured_stack env) _ Hn) as (n & ->)
    | rewrite (to_string_throws _ _ Hn); eexists; split; [reflexivity | now left]].
  destruct (convertible vehicle) eqn:Hv; cbn [andb rbind];
    [destruct (to_string_convertible (captured_stack env) _ Hv) as (v & ->)
    | rewrite (to_string_throws _ _ Hv); eexists; split; [reflexivity | now left]].
  destruct (convertible phone) eqn:Hp; cbn [andb rbind];
    [destruct (to_string_convertible (captured_stack env) _ Hp) as (p & ->)
    | rewrite (to_string_throws _ _ Hp); eexists; split; [reflexivity | now left]].
  cbn [rbind].
  destruct answers as [| |b|t|s|l|fs];
    try (eexists; split; [reflexivity | now right]).
  cbn [items]. destruct (forallb convertible l) eqn:Hl.
  - destruct (map_from_convertible env l 0 Hl) as (lis & -> & _).
    now eexists.
  - rewrite (map_from_throws env l 0 Hl). eexists. split; [reflexivity | now left].
Qed.

(* ===================================================================== *)
(** ** Every request on [POST /send-feedback] takes one of six ways *)
(* ===================================================================== *)

Lemma path_crash (env : Env) (req : Request) (w : World) (e : JsError) :
  destructure env (body req) = Throw e ->
  catchAsync (send_feedback env) req w = (Next e, w).
Proof.
  intro H. unfold catchAsync, send_feedback, bind, lift. now rewrite H.
Qed.

Lemma app_handled (env : Env) (req : Request) (w : World) :
  layer env req = SendFeedbackRoute ->
  handled env req w (fst (app env req w)) (snd (app env req w)).
Proof.
  intro Hl. rewrite (app_send_feedback env req w Hl). cbn [fst snd].
  destruct (destructure env (body req)) as [[[[n v] p] a]|e] eqn:Hb.
  2:{ rewrite (path_crash env req w e Hb). now apply handled_crash. }
  destruct (incomplete n v p a) eqn:Hinc.
  { rewrite (path_incomplete env req w _ _ _ _ Hb Hinc).
    now apply (handled_incomplete env req w n v p a). }
  assert (Hacc : accepted env req n v p a) by now split.
  destruct (save_fault env (document env n v p a)) as [f|] eqn:Hfault.
  { rewrite (path_save_rejects env req w _ _ _ _ Hb f Hinc Hfault).
    now apply handled_store_fault. }
  unfold save_fault in Hfault.
  destruct (cast (document env n v p a)) as [stored|] eqn:Hcast;
    [|discriminate].
  rename Hfault into Hsave.
  destruct (feedbackHTML env n v p a) as [html|e] eqn:Hhtml.
  2:{ rewrite (path_render_throws env req w _ _ _ _ Hb stored e
                 Hinc Hcast Hsave Hhtml).
      now apply (handled_render_fault env req w n v p a stored e). }
  destruct (mail_options_defined env n v p a html Hhtml) as (n' & v' & _ & _ & Hopts).
  destruct (sendMail_rejects env) as [f|] eqn:Hmail.
  - rewrite (path_sendMail_rejects env req w _ _ _ _ Hb stored html _ f
               Hinc Hcast Hsave Hhtml Hopts Hmail).
    now apply (handled_mail_fault env req w n v p a stored html _ f).
  - rewrite (path_delivered env req w _ _ _ _ Hb stored html _
               Hinc Hcast Hsave Hhtml Hopts Hmail).
    now apply (handled_delivered env req w n v p a stored html).
Qed.

Lemma destructure_error (env : Env) (b : JValue) (e : JsError) :
  destructure env b = Throw e -> statusCode e = None /\ status e = JUndefined.
Proof. destruct b; intro H; try discriminate; injection H as <-; now split. Qed.

Lemma render_error_plain (env : Env) (e : JsError) :
  render_error env e -> statusCode e = None /\ status e = JUndefined.
Proof. intros [->| ->]; now split. Qed.

Lemma feedbackHTML_error (env : Env) (n v p a : JValue) (e : JsError) :
  feedbackHTML env n v p a = Throw e -> render_error env e.
Proof.
  intro H. pose proof (feedbackHTML_spec env n v p a) as S.
  destruct (renders n v p a).
  - destruct S as (html & E). congruence.
  - destruct S as (e' & E & R). congruence.
Qed.

Lemma plain_error_500 (env : Env) (e : JsError) :
  statusCode e = None -> res_status (errorHandler env e) = 500.
Proof. intro H. unfold errorHandler. cbn [res_status]. now rewrite H. Qed.

Lemma falsy_truthy (v : JValue) : falsy v <-> truthy v = false.
Proof.
  unfold falsy. split.
  - intros [->|[->|[->|[->| ->]]]]; reflexivity.
  - destruct v as [| |b|c t|s|l|fs]; cbn [truthy]; intro H;
      try discriminate; auto.
    + subst b. auto.
    + apply negb_false_iff, String.eqb_eq in H. injection H as -> ->. auto 6.
    + apply negb_false_iff, String.eqb_eq in H. subst s. auto 6.
Qed.

Lemma join_texts (trace : string) (l : list string) :
  join trace (map JStr l) = Ok (String.concat "," l).
Proof.
  induction l as [|a [|b l] IH]; try reflexivity.
  change (join trace (map JStr (a :: b :: l)))
    with (rbind (join trace (map JStr (b :: l)))
            (fun r => Ok (a ++ "," ++ r))).
  rewrite IH. reflexivity.
Qed.

Lemma occurs_intro (s h a b : string) :
  h = a ++ s ++ b -> occurs s h = true.
Proof. intros ->. apply occurs_app. Qed.

(* ===================================================================== *)
(** ** Further properties of the renderer *)
(* ===================================================================== *)

(** X1.  The template [feedbackHTML] is rendered exactly when the answers
    are an array and neither name, vehicle, phone nor an answer entry holds
    an object with an own [toString] property; otherwise it throws. *)
Theorem rendering_defined_iff
    (env : Env) (name vehicle phone answers : JValue) :
  (exists html, feedbackHTML env name vehicle phone answers = Ok html) <->
  renders name vehicle phone answers = true.
Proof.
  pose proof (feedbackHTML_spec env name vehicle phone answers) as S.
  destruct (renders name vehicle phone answers); split; intro H.
  - reflexivity.
  - exact S.
  - destruct S as (e & E & _). destruct H as (html & H). congruence.
  - discriminate.
Qed.

(** X2.  On an array of arbitrary JSON entries that convert to text,
    [answers.map] yields one item per entry, in order: item [k] is built
    from question [k] and the text of entry [k], with "Not Answered" in place
    of a falsy entry. *)
Theorem items_indexwise (env : Env) (l : list JValue) :
  forallb convertible l = true ->
  exists lis,
    items env (JArr l) = Ok lis /\
    length lis = length l /\
    forall k x, nth_error l k = Some x ->
      exists a,
        to_string (captured_stack env) (or_else x (JStr "Not Answered")) = Ok a /\
        nth_error lis k = Some (li (label k) a).
Proof.
  intro H.
  destruct (map_from_convertible env l 0 H) as (lis & Hmap & Hlen & Hnth).
  exists lis. split; [exact Hmap|]. split; [exact Hlen|].
  intros k x Hx. destruct (Hnth k x Hx) as (s & Hs & Hk). cbn in Hs.
  assert (Hc : convertible x = true).
  { rewrite forallb_forall in H. eapply H, nth_error_In, Hx. }
  destruct (item_convertible env x k Hc) as (a & Ha & Hitem).
  exists a. split; [exact Ha|]. congruence.
Qed.

Lemma items_indexwise_witness :
  forallb convertible [JStr "Good"; JNull; JNum "4"; JObj []] = true /\
  exists lis,
    items Samples.env_ok (JArr [JStr "Good"; JNull; JNum "4"; JObj []]) = Ok lis /\
    length lis = length [JStr "Good"; JNull; JNum "4"; JObj []] /\
    forall k x, nth_error [JStr "Good"; JNull; JNum "4"; JObj []] k = Some x ->
      exists a,
        to_string (captured_stack Samples.env_ok)
          (or_else x (JStr "Not Answered")) = Ok a /\
        nth_error lis k = Some (li (label k) a).
Proof.
  split; [reflexivity|].
  apply (items_indexwise Samples.env_ok
           [JStr "Good"; JNull; JNum "4"; JObj []]).
  reflexivity.
Defined.

(** X3.  Every falsy answer entry, not only the empty text, is shown as
    "Not Answered": [undefined], [null], [false] and the number zero. *)
Theorem falsy_entry_not_answered (env : Env) (ans : JValue) (i : nat) :
  falsy ans ->
  item env ans i = Ok (li (label i) "Not Answered").
Proof.
  intro H. apply falsy_truthy in H.
  unfold item, or_else. rewrite index_label, H. reflexivity.
Qed.

Lemma falsy_entry_not_answered_witness :
  falsy JNull /\
  item Samples.env_ok JNull 2 = Ok (li (label 2) "Not Answered").
Proof.
  assert (H : falsy JNull) by (right; left; reflexivity).
  split; [exact H|].
  exact (falsy_entry_not_answered Samples.env_ok JNull 2 H).
Defined.

(** X4.  An answer entry at a position past the 18 questions is rendered
    under the label "undefined", the text of [questions[i]] there. *)
Theorem label_past_questions (env : Env) (a : string) (i : nat) :
  (18 <= i)%nat ->
  item env (JStr a) i = Ok (li "undefined" (shown a)).
Proof.
  intro H. rewrite item_text. unfold label.
  assert (E : nth_error questions i = None).
  { apply nth_error_None. now rewrite questions_length. }
  now rewrite E.
Qed.

Lemma label_past_questions_witness :
  (18 <= 19)%nat /\
  item Samples.env_ok (JStr "Extra20") 19 = Ok (li "undefined" (shown "Extra20")).
Proof.
  split; [lia|].
  apply (label_past_questions Samples.env_ok "Extra20" 19). lia.
Defined.

(** X5.  An answer entry that is itself an array of text is shown as its
    elements joined with commas; the empty array is shown as the empty
    text, not as "Not Answered". *)
Theorem array_entry_comma_joined (env : Env) (l : list string) (i : nat) :
  item env (texts l) i = Ok (li (label i) (String.concat "," l)).
Proof.
  unfold item, or_else, texts. cbn [truthy].
  rewrite index_label, to_string_array, join_texts. reflexivity.
Qed.

(** X6.  Name, vehicle, phone and the time of submission are put on the
    page as they are, without escaping, each in its own paragraph. *)
Theorem page_verbatim (env : Env) (n v p : string) (l : list string) :
  exists html,
    feedbackHTML env (JStr n) (JStr v) (JStr p) (texts l) = Ok html /\
    occurs ("<p><b>Name:</b> " ++ n ++ "</p>") html = true /\
    occurs ("<p><b>Vehicle No:</b> " ++ v ++ "</p>") html = true /\
    occurs ("<p><b>Phone:</b> " ++ p ++ "</p>") html = true /\
    occurs ("Submitted on: " ++ toLocaleString env ++ "</p>") html = true.
Proof.
  unfold feedbackHTML. simpl to_string. cbv beta iota delta [rbind].
  rewrite items_texts. eexists. split; [reflexivity|].
  repeat split.
  - eapply (occurs_intro _ _
              (nl ++ "    <h2>Hyundai Customer Feedback</h2>" ++ nl ++ "    ")).
    rewrite !append_assoc. reflexivity.
  - eapply (occurs_intro _ _
              (nl ++ "    <h2>Hyundai Customer Feedback</h2>"
               ++ nl ++ "    <p><b>Name:</b> " ++ n ++ "</p>" ++ nl ++ "    ")).
    rewrite !append_assoc. reflexivity.
  - eapply (occurs_intro _ _
              (nl ++ "    <h2>Hyundai Customer Feedback</h2>"
               ++ nl ++ "    <p><b>Name:</b> " ++ n ++ "</p>"
               ++ nl ++ "    <p><b>Vehicle No:</b> " ++ v ++ "</p>"
               ++ nl ++ "    ")).
    rewrite !append_assoc. reflexivity.
  - eapply (occurs_intro _ _
              (nl ++ "    <h2>Hyundai Customer Feedback</h2>"
               ++ nl ++ "    <p><b>Name:</b> " ++ n ++ "</p>"
               ++ nl ++ "    <p><b>Vehicle No:</b> " ++ v ++ "</p>"
               ++ nl ++ "    <p><b>Phone:</b> " ++ p ++ "</p>"
               ++ nl ++ "    <hr/>"
               ++ nl ++ "    <h3>📝 Feedback Summary</h3>"
               ++ nl ++ "    <ol>"
               ++ nl ++ "      " ++ String.concat "" (li_from 0 l)
               ++ nl ++ "    </ol>"
               ++ nl ++ "    <p>🕒 ")).
    rewrite !append_assoc. reflexivity.
Qed.

(* ===================================================================== *)
(** ** Further properties of the handler *)
(* ===================================================================== *)

Lemma incomplete_falsy (name vehicle phone answers : JValue) :
  incomplete name vehicle phone answers = true <->
  falsy name \/ falsy vehicle \/ falsy phone \/ falsy answers.
Proof.
  unfold incomplete. rewrite !orb_true_iff, !negb_true_iff, !falsy_truthy.
  tauto.
Qed.

Lemma app_elsewhere (env : Env) (req : Request) (w : World) :
  layer env req <> SendFeedbackRoute -> snd (app env req w) = w.
Proof.
  intro H. unfold app. destruct (layer env req); try reflexivity. now destruct H.
Qed.

Lemma mail_options_fields (env : Env) (name vehicle : JValue)
    (html : string) (m : Mail) :
  mail_options env name vehicle html = Ok m ->
  mail_to m = COMPANY_EMAIL env /\
  mail_from m = dquote ++ "Hyundai Feedback" ++ dquote
                ++ " <" ++ env_text (COMPANY_EMAIL env) ++ ">" /\
  startsWith (mail_subject m) "New Feedback from " = true /\
  mail_html m = html.
Proof.
  unfold mail_options.
  destruct (to_string (captured_stack env) name) as [n|]; [|discriminate].
  destruct (to_string (captured_stack env) vehicle) as [v|]; [|discriminate].
  cbn [rbind]. intro H. injection H as <-.
  split; [reflexivity|]. split; [reflexivity|]. split; [|reflexivity].
  unfold startsWith.
  change (String.prefix "New Feedback from "
            ("New Feedback from " ++ (n ++ " (" ++ v ++ ")")) = true).
  apply prefix_app.
Qed.

Lemma not_grown {A : Type} (l : list A) (x : A) : l <> (l ++ [x])%list.
Proof.
  intro H. apply (f_equal (@length A)) in H.
  rewrite length_app in H. cbn in H. lia.
Qed.

Lemma status_class (code : Z) :
  400 <= code <= 599 ->
  startsWith (string_of_Z code) "4" = (code <? 500).
Proof.
  intro H.
  assert (T : forallb
                (fun k => Bool.eqb
                            (startsWith (string_of_Z (400 + Z.of_nat k)) "4")
                            (400 + Z.of_nat k <? 500))
                (seq 0 200) = true) by (vm_compute; reflexivity).
  rewrite forallb_forall in T.
  specialize (T (Z.to_nat (code - 400))).
  replace (400 + Z.of_nat (Z.to_nat (code - 400))) with code in T by lia.
  apply eqb_prop, T, in_seq. lia.
Qed.

(** X7.  A payload whose answers are present but not an array, such as a
    string, passes the validation; mongoose casts the value to an array of
    one text and that document is stored; rendering, which reads the value
    as received, then throws, and the request is answered with 500, status
    "error" and the message "answers.map is not a function", with no mail
    attempted. *)
Theorem non_array_answers_stored_then_500
    (env : Env) (req : Request) (w : World)
    (name vehicle phone answers : JValue) (stored : Feedback) :
  layer env req = SendFeedbackRoute ->
  accepted env req name vehicle phone answers ->
  cast (document env name vehicle phone answers) = Some stored ->
  convertible name = true ->
  convertible vehicle = true ->
  convertible phone = true ->
  (forall l, answers <> JArr l) ->
  save_rejects env = None ->
  exists r w' x,
    app env req w = (r, w') /\
    store w' = (store w ++ [stored])%list /\
    cast_String answers = Some x /\
    fb_answers stored = JArr [x] /\
    outbox w' = outbox w /\
    calls w' =
      (calls w ++ [CallSave (document env name vehicle phone answers)])%list /\
    res_status r = 500 /\
    field r "success" = JBool false /\
    field r "status" = JStr "error" /\
    field r "message" = JStr "answers.map is not a function".
Proof.
  intros Hl [Hb Hinc] Hcast Hn Hv Hp Harr Hsave.
  assert (Hhtml : feedbackHTML env name vehicle phone answers =
                  Throw (TypeError (captured_stack env)
                           "answers.map is not a function")).
  { unfold feedbackHTML.
    destruct (to_string_convertible (captured_stack env) _ Hn) as (n & ->).
    destruct (to_string_convertible (captured_stack env) _ Hv) as (v & ->).
    destruct (to_string_convertible (captured_stack env) _ Hp) as (p & ->).
    cbn [rbind]. destruct answers; try reflexivity.
    now destruct (Harr elems). }
  assert (Hx : exists x, cast_String answers = Some x /\
                         fb_answers stored = JArr [x]).
  { assert (Ht : truthy answers = true).
    { unfold incomplete in Hinc. destruct (truthy answers); [reflexivity|].
      rewrite !orb_true_r in Hinc. discriminate. }
    unfold cast, document in Hcast.
    cbn [fb_name fb_vehicle fb_phone fb_answers fb_submittedAt] in Hcast.
    destruct (cast_String name); [|discriminate].
    destruct (cast_String vehicle); [|discriminate].
    destruct (cast_String phone); [|discriminate].
    destruct (cast_Strings answers) as [a|] eqn:Ha; [|discriminate].
    injection Hcast as <-. cbn [fb_answers].
    destruct answers as [| |b|c t|s|l|fs]; try discriminate;
      try (now destruct (Harr l));
      unfold cast_Strings, cast_elems in Ha;
      destruct (cast_String _) as [x|]; try discriminate;
      injection Ha as <-; now exists x. }
  destruct Hx as (x & Hx1 & Hx2).
  rewrite (app_send_feedback env req w Hl).
  rewrite (path_render_throws env req w _ _ _ _ Hb stored _
             Hinc Hcast Hsave Hhtml).
  cbn [fst snd finish].
  destruct (errorHandler_fields env
              (TypeError (captured_stack env) "answers.map is not a function"))
    as (H1 & H2 & H3).
  do 2 eexists. exists x. split; [reflexivity|]. cbn [store outbox calls].
  split; [reflexivity|]. split; [exact Hx1|]. split; [exact Hx2|].
  repeat split; first [exact H1 | exact H2 | exact H3].
Qed.

Lemma non_array_answers_stored_then_500_witness :
  accepted Samples.env_ok (Samples.submission (JStr "all good"))
    (JStr "A. Singh") (JStr "KA01AB1234") (JStr "9999999999")
    (JStr "all good") /\
  cast (document Samples.env_ok (JStr "A. Singh") (JStr "KA01AB1234")
          (JStr "9999999999") (JStr "all good")) =
    Some (document Samples.env_ok (JStr "A. Singh") (JStr "KA01AB1234")
            (JStr "9999999999") (JArr [JStr "all good"])) /\
  exists r w' x,
    app Samples.env_ok (Samples.submission (JStr "all good"))
      Samples.empty_world = (r, w') /\
    store w' =
      (store Samples.empty_world ++
       [document Samples.env_ok (JStr "A. Singh") (JStr "KA01AB1234")
          (JStr "9999999999") (JArr [JStr "all good"])])%list /\
    cast_String (JStr "all good") = Some x /\
    fb_answers
      (document Samples.env_ok (JStr "A. Singh") (JStr "KA01AB1234")
         (JStr "9999999999") (JArr [JStr "all good"])) = JArr [x] /\
    outbox w' = outbox Samples.empty_world /\
    calls w' =
      (calls Samples.empty_world ++
       [CallSave (document Samples.env_ok (JStr "A. Singh") (JStr "KA01AB1234")
                    (JStr "9999999999") (JStr "all good"))])%list /\
    res_status r = 500 /\
    field r "success" = JBool false /\
    field r "status" = JStr "error" /\
    field r "message" = JStr "answers.map is not a function".
Proof.
  split; [split; reflexivity|]. split; [reflexivity|].
  apply (non_array_answers_stored_then_500 Samples.env_ok
           (Samples.submission (JStr "all good")) Samples.empty_world
           (JStr "A. Singh") (JStr "KA01AB1234") (JStr "9999999999")
           (JStr "all good")).
  - reflexivity.
  - split; reflexivity.
  - reflexivity.
  - reflexivity.
  - reflexivity.
  - reflexivity.
  - intros l; discriminate.
  - reflexivity.
Defined.

Lemma layer_post (env : Env) (req : Request) :
  method req = "POST" ->
  layer env req =
    match parser_error req with
    | Some e => BodyParser e
    | None =>
        if route_match "/send-feedback" (pathname (originalUrl req))
        then SendFeedbackRoute
        else if decodable (pathname (originalUrl req)) then CatchAllRoute
        else CatchAllDecode
    end.
Proof.
  intro H. unfold layer, get_or_head. rewrite H. cbn.
  destruct (parser_error req); reflexivity.
Qed.

Lemma handled_code (env : Env) (req : Request) (w w' : World) (r : Response) :
  handled env req w r w' -> send_feedback_code (res_status r).
Proof.
  unfold send_feedback_code.
  intros [e He| | |n v p a stored e _ _ _ He| |].
  - right; right. apply plain_error_500.
    now destruct (destructure_error env _ e He).
  - right; left; reflexivity.
  - right; right; reflexivity.
  - right; right. apply plain_error_500.
    now destruct (render_error_plain env e (feedbackHTML_error env n v p a e He)).
  - right; right; reflexivity.
  - left; reflexivity.
Qed.

(** X8.  A [POST] of [/send-feedback] whose body [express.json()] refuses
    is answered by the error handler from the error of the parser, and the
    handler is not run; once the body is accepted, the answer is 200, 400 or
    500, whatever the parsed body is and whatever the collaborators do. *)
Theorem send_feedback_codes (env : Env) (req : Request) (w : World) :
  method req = "POST" ->
  route_match "/send-feedback" (pathname (originalUrl req)) = true ->
  match parser_error req with
  | Some e => app env req w = (errorHandler env (error_of_http e), w)
  | None => send_feedback_code (res_status (fst (app env req w)))
  end.
Proof.
  intros Hm Hr. pose proof (layer_post env req Hm) as Hl. rewrite Hr in Hl.
  destruct (parser_error req) as [e|].
  - unfold app. now rewrite Hl.
  - apply (handled_code env req w (snd (app env req w))).
    now apply app_handled.
Qed.

Lemma send_feedback_codes_witness :
  method {| method := "POST"; originalUrl := "/send-feedback";
            body := JObj [];
            parser_error :=
              Some {| http_code := 413;
                      http_message := "request entity too large";
                      http_stack := "PayloadTooLargeError" |} |} = "POST" /\
  app Samples.env_ok
    {| method := "POST"; originalUrl := "/send-feedback"; body := JObj [];
       parser_error :=
         Some {| http_code := 413;
                 http_message := "request entity too large";
                 http_stack := "PayloadTooLargeError" |} |}
    Samples.empty_world =
    (errorHandler Samples.env_ok
       (error_of_http {| http_code := 413;
                         http_message := "request entity too large";
                         http_stack := "PayloadTooLargeError" |}),
     Samples.empty_world) /\
  send_feedback_code
    (res_status
       (fst (app Samples.env_ok (Samples.submission (JObj [("toString", JNull)]))
               Samples.empty_world))).
Proof.
  split; [reflexivity|]. split.
  - apply (send_feedback_codes Samples.env_ok
             {| method := "POST"; originalUrl := "/send-feedback";
                body := JObj [];
                parser_error :=
                  Some {| http_code := 413;
                          http_message := "request entity too large";
                          http_stack := "PayloadTooLargeError" |} |}
             Samples.empty_world); reflexivity.
  - apply (send_feedback_codes Samples.env_ok
             (Samples.submission (JObj [("toString", JNull)]))
             Samples.empty_world); reflexivity.
Defined.

(** X9.  A request whose body can be destructured is answered with 400
    exactly when name, vehicle, phone or answers is falsy: [undefined],
    [null], [false], the number zero or the empty text.  Every other value,
    of whatever type, passes the validation. *)
Theorem bad_request_iff_falsy_field
    (env : Env) (req : Request) (w : World)
    (name vehicle phone answers : JValue) :
  layer env req = SendFeedbackRoute ->
  destructure env (body req) = Ok (name, vehicle, phone, answers) ->
  (res_status (fst (app env req w)) = 400 <->
   falsy name \/ falsy vehicle \/ falsy phone \/ falsy answers).
Proof.
  intros Hl Hb. rewrite <- incomplete_falsy.
  pose proof (app_handled env req w Hl) as H.
  destruct H as [e He|n v p a Hb' Hinc|n v p a f [Hb' Hinc] _
                |n v p a stored e [Hb' Hinc] _ _ He
                |n v p a stored html m f [Hb' Hinc]
                |n v p a stored html m [Hb' Hinc]];
    try (rewrite Hb in Hb'; injection Hb' as <- <- <- <-; rewrite Hinc).
  - congruence.
  - split; reflexivity.
  - split; discriminate.
  - destruct (render_error_plain env e (feedbackHTML_error env _ _ _ _ e He))
      as (Hc & _).
    rewrite (plain_error_500 env e Hc). split; discriminate.
  - split; discriminate.
  - split; discriminate.
Qed.

Lemma bad_request_iff_falsy_field_witness :
  destructure Samples.env_ok
    (body (Samples.post [("name", JStr "A. Singh"); ("vehicle", JNum "0");
                         ("phone", JNum "9999999999");
                         ("answers", texts Samples.five)])) =
    Ok (JStr "A. Singh", JNum "0", JNum "9999999999", texts Samples.five) /\
  (res_status
     (fst (app Samples.env_ok
             (Samples.post [("name", JStr "A. Singh"); ("vehicle", JNum "0");
                            ("phone", JNum "9999999999");
                            ("answers", texts Samples.five)])
             Samples.empty_world)) = 400 <->
   falsy (JStr "A. Singh") \/ falsy (JNum "0") \/ falsy (JNum "9999999999") \/
   falsy (texts Samples.five)).
Proof.
  split; [reflexivity|].
  apply (bad_request_iff_falsy_field Samples.env_ok
           (Samples.post [("name", JStr "A. Singh"); ("vehicle", JNum "0");
                          ("phone", JNum "9999999999");
                          ("answers", texts Samples.five)])
           Samples.empty_world);
    reflexivity.
Defined.

(** X10.  [POST /send-feedback] answers with 200 exactly when the request
    has added one document to the store and one message to the outbox; on
    every other path nothing is delivered and at most the document is
    added. *)
Theorem ok_iff_stored_and_delivered (env : Env) (req : Request) (w : World) :
  layer env req = SendFeedbackRoute ->
  (res_status (fst (app env req w)) = 200 <->
   exists d m,
     store (snd (app env req w)) = (store w ++ [d])%list /\
     outbox (snd (app env req w)) = (outbox w ++ [m])%list) /\
  (res_status (fst (app env req w)) <> 200 ->
   outbox (snd (app env req w)) = outbox w /\
   (store (snd (app env req w)) = store w \/
    exists d, store (snd (app env req w)) = (store w ++ [d])%list)).
Proof.
  intro Hl. pose proof (app_handled env req w Hl) as H.
  destruct H as [e He| | |n v p a stored e _ _ _ He
                |n v p a stored html m f|n v p a stored html m];
    cbn [store outbox].
  - destruct (destructure_error env _ e He) as (Hc & _).
    rewrite (plain_error_500 env e Hc). split.
    + split; [discriminate|].
      intros (d & m & _ & Hm). now destruct (not_grown _ _ Hm).
    + intros _. split; [reflexivity | now left].
  - split.
    + split; [discriminate|].
      intros (d & m & _ & Hm). now destruct (not_grown _ _ Hm).
    + intros _. split; [reflexivity | now left].
  - split.
    + split; [discriminate|].
      intros (d & m & _ & Hm). now destruct (not_grown _ _ Hm).
    + intros _. split; [reflexivity | now left].
  - destruct (render_error_plain env e (feedbackHTML_error env _ _ _ _ e He))
      as (Hc & _).
    rewrite (plain_error_500 env e Hc). split.
    + split; [discriminate|].
      intros (d & m & _ & Hm). now destruct (not_grown _ _ Hm).
    + intros _. split; [reflexivity | right; now exists stored].
  - split.
    + split; [discriminate|].
      intros (d & m' & _ & Hm). now destruct (not_grown _ _ Hm).
    + intros _. split; [reflexivity | right; now exists stored].
  - split.
    + split; [|reflexivity]. intros _. now exists stored, m.
    + intro Hne. now destruct Hne.
Qed.

Lemma ok_iff_stored_and_delivered_witness :
  layer Samples.env_ok (Samples.submission (texts Samples.eighteen)) =
    SendFeedbackRoute /\
  (res_status
     (fst (app Samples.env_ok (Samples.submission (texts Samples.eighteen))
             Samples.empty_world)) = 200 <->
   exists d m,
     store (snd (app Samples.env_ok
                   (Samples.submission (texts Samples.eighteen))
                   Samples.empty_world)) =
       (store Samples.empty_world ++ [d])%list /\
     outbox (snd (app Samples.env_ok
                    (Samples.submission (texts Samples.eighteen))
                    Samples.empty_world)) =
       (outbox Samples.empty_world ++ [m])%list) /\
  (res_status
     (fst (app Samples.env_ok (Samples.submission (texts Samples.eighteen))
             Samples.empty_world)) <> 200 ->
   outbox (snd (app Samples.env_ok
                  (Samples.submission (texts Samples.eighteen))
                  Samples.empty_world)) = outbox Samples.empty_world /\
   (store (snd (app Samples.env_ok
                  (Samples.submission (texts Samples.eighteen))
                  Samples.empty_world)) = store Samples.empty_world \/
    exists d,
      store (snd (app Samples.env_ok
                    (Samples.submission (texts Samples.eighteen))
                    Samples.empty_world)) =
        (store Samples.empty_world ++ [d])%list)).
Proof.
  split; [reflexivity|].
  apply (ok_iff_stored_and_delivered Samples.env_ok
           (Samples.submission (texts Samples.eighteen)) Samples.empty_world).
  reflexivity.
Defined.

Ltac grown :=
  first [ reflexivity
        | symmetry; apply app_nil_r
        | rewrite <- app_assoc; reflexivity ].

Tactic Notation "grows" uconstr(ds) uconstr(ms) :=
  exists ds, ms; eexists;
  split; [grown|]; split; [grown|]; split; [grown|]; cbn; lia.

(** X11.  No request, on any route, removes or changes what the world
    holds: the store, the outbox and the calls only grow at their end, by at
    most one document and one message, and a message is delivered only when
    a document has been stored by the same request. *)
Theorem world_only_grows (env : Env) (req : Request) (w : World) :
  exists ds ms cs,
    store (snd (app env req w)) = (store w ++ ds)%list /\
    outbox (snd (app env req w)) = (outbox w ++ ms)%list /\
    calls (snd (app env req w)) = (calls w ++ cs)%list /\
    (length ms <= length ds <= 1)%nat.
Proof.
  destruct (layer env req) eqn:Hl;
    try (rewrite app_elsewhere by congruence; now grows [] []).
  pose proof (app_handled env req w Hl) as H.
  destruct H as [| | |n v p a stored e|n v p a stored html m f
                |n v p a stored html m];
    cbn [store outbox calls].
  - now grows [] [].
  - now grows [] [].
  - now grows [] [].
  - now grows [stored] [].
  - now grows [stored] [].
  - now grows [stored] [m].
Qed.

(** X12.  Every message that a request hands to the mail transport is
    addressed to [COMPANY_EMAIL], sent from the fixed "Hyundai Feedback"
    address built on it, and has a subject that starts with
    "New Feedback from "; nothing in the payload changes the recipient. *)
Theorem mail_goes_to_company_mailbox
    (env : Env) (req : Request) (w : World) (m : Mail) :
  In (CallSendMail m) (calls (snd (app env req w))) ->
  In (CallSendMail m) (calls w) \/
  (mail_to m = COMPANY_EMAIL env /\
   mail_from m = dquote ++ "Hyundai Feedback" ++ dquote
                 ++ " <" ++ env_text (COMPANY_EMAIL env) ++ ">" /\
   startsWith (mail_subject m) "New Feedback from " = true).
Proof.
  destruct (layer env req) eqn:Hl;
    try (rewrite app_elsewhere by congruence; now left).
  pose proof (app_handled env req w Hl) as H.
  destruct H as [| | | |n v p a stored html m' f _ _ _ _ Hopts _
                |n v p a stored html m' _ _ _ _ Hopts _];
    cbn [calls]; intro Hin; try (now left).
  - apply in_app_or in Hin. destruct Hin as [Hin|[Hin|[]]];
      [now left | discriminate].
  - apply in_app_or in Hin. destruct Hin as [Hin|[Hin|[]]];
      [now left | discriminate].
  - apply in_app_or in Hin. destruct Hin as [Hin|[Hin|[]]].
    + apply in_app_or in Hin. destruct Hin as [Hin|[Hin|[]]];
        [now left | discriminate].
    + injection Hin as <-. right.
      destruct (mail_options_fields env _ _ _ _ Hopts) as (H1 & H2 & H3 & _).
      now repeat split.
  - apply in_app_or in Hin. destruct Hin as [Hin|[Hin|[]]].
    + apply in_app_or in Hin. destruct Hin as [Hin|[Hin|[]]];
        [now left | discriminate].
    + injection Hin as <-. right.
      destruct (mail_options_fields env _ _ _ _ Hopts) as (H1 & H2 & H3 & _).
      now repeat split.
Qed.

Lemma mail_goes_to_company_mailbox_witness :
  In (CallSendMail delivered_mail)
    (calls (snd (app Samples.env_ok (Samples.submission (texts Samples.five))
                   Samples.empty_world))) /\
  (In (CallSendMail delivered_mail) (calls Samples.empty_world) \/
   (mail_to delivered_mail = COMPANY_EMAIL Samples.env_ok /\
    mail_from delivered_mail =
      dquote ++ "Hyundai Feedback" ++ dquote
      ++ " <" ++ env_text (COMPANY_EMAIL Samples.env_ok) ++ ">" /\
    startsWith (mail_subject delivered_mail) "New Feedback from " = true)).
Proof.
  assert (H : In (CallSendMail delivered_mail)
                (calls (snd (app Samples.env_ok
                               (Samples.submission (texts Samples.five))
                               Samples.empty_world)))).
  { vm_compute. right; left; reflexivity. }
  split; [exact H|].
  exact (mail_goes_to_company_mailbox Samples.env_ok
           (Samples.submission (texts Samples.five)) Samples.empty_world
           delivered_mail H).
Defined.

(** X13.  A body that is a JSON array instead of an object has none of the
    four properties: the request is answered with 400 and the world is
    unchanged. *)
Theorem array_body_rejected
    (env : Env) (req : Request) (w : World) (elems : list JValue) :
  layer env req = SendFeedbackRoute ->
  body req = JArr elems ->
  exists r,
    app env req w = (r, w) /\
    res_status r = 400 /\
    field r "success" = JBool false /\
    field r "status" = JStr "fail" /\
    field r "message" = JStr "Incomplete data. All fields required.".
Proof.
  intros Hl Hb.
  apply (rejected env req w JUndefined JUndefined JUndefined JUndefined Hl).
  - rewrite Hb. reflexivity.
  - reflexivity.
Qed.

Lemma array_body_rejected_witness :
  body {| method := "POST"; originalUrl := "/send-feedback";
          body := JArr [JStr "Good"; JStr "Fair"]; parser_error := None |} =
    JArr [JStr "Good"; JStr "Fair"] /\
  exists r,
    app Samples.env_ok
      {| method := "POST"; originalUrl := "/send-feedback";
         body := JArr [JStr "Good"; JStr "Fair"]; parser_error := None |}
      Samples.empty_world = (r, Samples.empty_world) /\
    res_status r = 400 /\
    field r "success" = JBool false /\
    field r "status" = JStr "fail" /\
    field r "message" = JStr "Incomplete data. All fields required.".
Proof.
  split; [reflexivity|].
  apply (array_body_rejected Samples.env_ok _ Samples.empty_world
           [JStr "Good"; JStr "Fair"]);
    reflexivity.
Defined.

(* ===================================================================== *)
(** ** Further properties of [AppError] and of the error handler *)
(* ===================================================================== *)

(** X14.  An [AppError] with a code from 400 to 599 and a message that is
    not empty is answered under that code, with its message, and with the
    status "fail" for the codes 400 to 499 and "error" for 500 to 599. *)
Theorem AppError_response (env : Env) (msg : string) (code : Z) :
  400 <= code <= 599 ->
  msg <> "" ->
  res_status (errorHandler env (AppError env msg code)) = code /\
  field (errorHandler env (AppError env msg code)) "success" = JBool false /\
  field (errorHandler env (AppError env msg code)) "status" =
    JStr (if code <? 500 then "fail" else "error") /\
  field (errorHandler env (AppError env msg code)) "message" = JStr msg.
Proof.
  intros Hc Hm.
  destruct (errorHandler_fields env (AppError env msg code)) as (H1 & H2 & H3).
  split.
  { unfold errorHandler. cbn [res_status statusCode AppError].
    destruct (code =? 0) eqn:E; [|reflexivity].
    apply Z.eqb_eq in E. lia. }
  split; [exact H1|]. split.
  - rewrite H2. cbn [status AppError]. rewrite (status_class code Hc).
    destruct (code <? 500); reflexivity.
  - rewrite H3. cbn [message AppError].
    apply String.eqb_neq in Hm. now rewrite Hm.
Qed.

Lemma AppError_response_witness :
  400 <= 422 <= 599 /\
  "Unprocessable" <> "" /\
  res_status
    (errorHandler Samples.env_ok (AppError Samples.env_ok "Unprocessable" 422))
    = 422 /\
  field (errorHandler Samples.env_ok
           (AppError Samples.env_ok "Unprocessable" 422)) "success" =
    JBool false /\
  field (errorHandler Samples.env_ok
           (AppError Samples.env_ok "Unprocessable" 422)) "status" =
    JStr (if 422 <? 500 then "fail" else "error") /\
  field (errorHandler Samples.env_ok
           (AppError Samples.env_ok "Unprocessable" 422)) "message" =
    JStr "Unprocessable".
Proof.
  split; [lia|]. split; [discriminate|].
  apply (AppError_response Samples.env_ok "Unprocessable" 422);
    [lia | discriminate].
Defined.

(** X15.  Whatever error reaches the error handler, the response never has
    the code 0, an empty message or a falsy status: an absent or zero
    [statusCode] is answered as 500 and any other code as itself, an empty
    message as "Internal Server Error", and an absent status as "error". *)
Theorem error_response_defaults (env : Env) (err : JsError) :
  res_status (errorHandler env err) <> 0 /\
  (statusCode err = None \/ statusCode err = Some 0 ->
   res_status (errorHandler env err) = 500) /\
  (forall c, statusCode err = Some c -> c <> 0 ->
             res_status (errorHandler env err) = c) /\
  field (errorHandler env err) "success" = JBool false /\
  truthy (field (errorHandler env err) "status") = true /\
  exists m,
    field (errorHandler env err) "message" = JStr m /\ m <> "" /\
    (message err = "" -> m = "Internal Server Error") /\
    (message err <> "" -> m = message err).
Proof.
  destruct (errorHandler_fields env err) as (H1 & H2 & H3).
  assert (Hcode : res_status (errorHandler env err) =
                  match statusCode err with
                  | Some c => if c =? 0 then 500 else c
                  | None => 500
                  end) by reflexivity.
  split; [|split; [|split; [|split; [exact H1|split]]]].
  - rewrite Hcode. destruct (statusCode err) as [c|]; [|discriminate].
    destruct (c =? 0) eqn:E; [discriminate|]. now apply Z.eqb_neq in E.
  - rewrite Hcode. intros [->| ->]; reflexivity.
  - intros c Hc Hnz. rewrite Hcode, Hc.
    apply Z.eqb_neq in Hnz. now rewrite Hnz.
  - rewrite H2. unfold or_else. destruct (truthy (status err)) eqn:E;
      [exact E | reflexivity].
  - rewrite H3. destruct (message err =? "")%string eqn:E.
    + exists "Internal Server Error". split; [reflexivity|].
      split; [discriminate|]. split; [reflexivity|].
      apply String.eqb_eq in E. congruence.
    + exists (message err). apply String.eqb_neq in E.
      split; [reflexivity|]. split; [exact E|]. split; [congruence | reflexivity].
Qed.

(* ===================================================================== *)
(** ** What the store and the outbox hold *)
(* ===================================================================== *)

Lemma cast_String_truthy (v x : JValue) :
  cast_String v = Some x -> truthy v = true -> truthy x = true.
Proof.
  destruct v as [| |b|c t|s|l|fs]; cbn [cast_String truthy]; try discriminate.
  - destruct b; [|discriminate]. now intros [= <-].
  - now intros [= <-].
  - now intros [= <-].
  - destruct (lookup "_id" fs) as [| |b|c t|id|l|fs']; try discriminate.
    destruct (id =? "")%string eqn:E; [discriminate|].
    intros [= <-] _. cbn [truthy]. now rewrite E.
Qed.

Lemma cast_Strings_truthy (v x : JValue) :
  cast_Strings v = Some x -> truthy v = true -> truthy x = true.
Proof.
  destruct v as [| |b|c t|s|l|fs]; cbn [cast_Strings truthy option_map];
    try discriminate;
    match goal with
    | |- context [cast_elems ?l] => destruct (cast_elems l)
    end; try discriminate; now intros [= <-].
Qed.

Lemma accepted_complete (env : Env) (name vehicle phone answers : JValue)
    (stored : Feedback) :
  incomplete name vehicle phone answers = false ->
  cast (document env name vehicle phone answers) = Some stored ->
  complete stored = true.
Proof.
  unfold incomplete, cast, document, complete.
  cbn [fb_name fb_vehicle fb_phone fb_answers fb_submittedAt].
  intros Hinc Hcast.
  destruct (cast_String name) as [n|] eqn:En; [|discriminate].
  destruct (cast_String vehicle) as [v|] eqn:Ev; [|discriminate].
  destruct (cast_String phone) as [p|] eqn:Ep; [|discriminate].
  destruct (cast_Strings answers) as [a|] eqn:Ea; [|discriminate].
  injection Hcast as <-. cbn [fb_name fb_vehicle fb_phone fb_answers].
  destruct (truthy name) eqn:Tn; [|discriminate].
  destruct (truthy vehicle) eqn:Tv; [|discriminate].
  destruct (truthy phone) eqn:Tp; [|discriminate].
  destruct (truthy answers) eqn:Ta; [|discriminate].
  rewrite (cast_String_truthy _ _ En Tn), (cast_String_truthy _ _ Ev Tv),
    (cast_String_truthy _ _ Ep Tp), (cast_Strings_truthy _ _ Ea Ta).
  reflexivity.
Qed.

(** X16.  The store never receives a document with a falsy name, vehicle,
    phone or answers: if every stored document is complete before a
    request, so is every stored document after it. *)
Theorem store_holds_complete_documents
    (env : Env) (req : Request) (w : World) :
  Forall (fun d => complete d = true) (store w) ->
  Forall (fun d => complete d = true) (store (snd (app env req w))).
Proof.
  intro Hw. destruct (layer env req) eqn:Hl;
    try (now rewrite app_elsewhere by congruence).
  pose proof (app_handled env req w Hl) as H.
  destruct H as [| | |n v p a stored e [_ Hinc] Hcast
                |n v p a stored html m f [_ Hinc] Hcast
                |n v p a stored html m [_ Hinc] Hcast];
    cbn [store]; try exact Hw;
    (apply Forall_app; split; [exact Hw|]; constructor;
     [now apply (accepted_complete env n v p a) | constructor]).
Qed.

Lemma store_holds_complete_documents_witness :
  Forall (fun d => complete d = true) (store Samples.empty_world) /\
  Forall (fun d => complete d = true)
    (store (snd (app Samples.env_mail_down
                   (Samples.submission (texts Samples.five))
                   Samples.empty_world))).
Proof.
  assert (H : Forall (fun d => complete d = true) (store Samples.empty_world))
    by constructor.
  split; [exact H|].
  exact (store_holds_complete_documents Samples.env_mail_down
           (Samples.submission (texts Samples.five)) Samples.empty_world H).
Defined.

(** X17.  When [POST /send-feedback] answers with 200, the document stored
    is the schema cast of the four values read from the body, with the time
    of the server, and the message delivered carries the page rendered from
    those four values as they were received, before the cast. *)
Theorem stored_cast_and_mail_as_received
    (env : Env) (req : Request) (w : World) :
  layer env req = SendFeedbackRoute ->
  res_status (fst (app env req w)) = 200 ->
  exists d m,
    store (snd (app env req w)) = (store w ++ [d])%list /\
    outbox (snd (app env req w)) = (outbox w ++ [m])%list /\
    cast (document env (get (body req) "name") (get (body req) "vehicle")
            (get (body req) "phone") (get (body req) "answers")) = Some d /\
    fb_submittedAt d = Date_now env /\
    feedbackHTML env (get (body req) "name") (get (body req) "vehicle")
      (get (body req) "phone") (get (body req) "answers") = Ok (mail_html m).
Proof.
  intros Hl Hcode. pose proof (app_handled env req w Hl) as H.
  destruct H as [e He| | |n v p a stored e _ _ _ He|
                |n v p a stored html m [Hb _] Hcast _ Hhtml Hopts _].
  - destruct (destructure_error env _ e He) as (Hc & _).
    rewrite (plain_error_500 env e Hc) in Hcode. discriminate.
  - discriminate.
  - discriminate.
  - destruct (render_error_plain env e (feedbackHTML_error env _ _ _ _ e He))
      as (Hc & _).
    rewrite (plain_error_500 env e Hc) in Hcode. discriminate.
  - discriminate.
  - exists stored, m. cbn [store outbox].
    destruct (mail_options_fields env _ _ _ _ Hopts) as (_ & _ & _ & Hm).
    assert (Hf : n = get (body req) "name" /\ v = get (body req) "vehicle" /\
                 p = get (body req) "phone" /\ a = get (body req) "answers").
    { unfold destructure in Hb. destruct (body req); try discriminate;
        injection Hb as <- <- <- <-; repeat split. }
    destruct Hf as (<- & <- & <- & <-).
    split; [reflexivity|]. split; [reflexivity|]. split; [exact Hcast|].
    split; [|now rewrite Hm].
    unfold cast, document in Hcast.
    cbn [fb_name fb_vehicle fb_phone fb_answers fb_submittedAt] in Hcast.
    destruct (cast_String n); [|discriminate].
    destruct (cast_String v); [|discriminate].
    destruct (cast_String p); [|discriminate].
    destruct (cast_Strings a); [|discriminate].
    now injection Hcast as <-.
Qed.

Lemma stored_cast_and_mail_as_received_witness :
  res_status
    (fst (app Samples.env_ok
            (Samples.post [("name", JBool true); ("vehicle", JStr "KA01AB1234");
                           ("phone", JNum "9999999999");
                           ("answers", JArr [JStr "Good"; JNum "4"])])
            Samples.empty_world)) = 200 /\
  exists d m,
    store (snd (app Samples.env_ok
                  (Samples.post [("name", JBool true);
                                 ("vehicle", JStr "KA01AB1234");
                                 ("phone", JNum "9999999999");
                                 ("answers", JArr [JStr "Good"; JNum "4"])])
                  Samples.empty_world)) =
      (store Samples.empty_world ++ [d])%list /\
    outbox (snd (app Samples.env_ok
                   (Samples.post [("name", JBool true);
                                  ("vehicle", JStr "KA01AB1234");
                                  ("phone", JNum "9999999999");
                                  ("answers", JArr [JStr "Good"; JNum "4"])])
                   Samples.empty_world)) =
      (outbox Samples.empty_world ++ [m])%list /\
    cast (document Samples.env_ok (JBool true) (JStr "KA01AB1234")
            (JNum "9999999999") (JArr [JStr "Good"; JNum "4"])) = Some d /\
    fb_submittedAt d = Date_now Samples.env_ok /\
    feedbackHTML Samples.env_ok (JBool true) (JStr "KA01AB1234")
      (JNum "9999999999") (JArr [JStr "Good"; JNum "4"]) = Ok (mail_html m).
Proof.
  split; [reflexivity|].
  apply (stored_cast_and_mail_as_received Samples.env_ok
           (Samples.post [("name", JBool true); ("vehicle", JStr "KA01AB1234");
                          ("phone", JNum "9999999999");
                          ("answers", JArr [JStr "Good"; JNum "4"])])
           Samples.empty_world);
    reflexivity.
Defined.

(* ===================================================================== *)
(** ** The middleware in front of the routes *)
(* ===================================================================== *)




